(** * Housekeeper self-check runner: a shallow embedding

    Model of [scripts/run_housekeeper_self_check.py].  The script parses its
    command line, polls [GET {base}/housekeeper/health] a bounded number of
    times, then issues one [GET {base}/housekeeper/self-check] and turns the
    answer into printed output and a process exit status.

    The embedding keeps the shape of the script:
    - Python objects decoded by [json.loads] are the inductive [value];
    - statements run in the monad [Py], which threads the chronological
      trace of observable events (calls to [urlopen], [time.sleep], texts
      written on either stream) and ends normally, by [SystemExit], or by a
      raised exception;
    - the service is an oracle answering the n-th call to [urlopen];
    - what the Python runtime does ([json.loads] and the exceptions it
      raises, [json.dumps], [repr], the encoding of standard output, the
      argument check of [time.sleep], the address check of
      [urllib.request.Request]) enters through the interface [PyLib]. *)

From Stdlib Require Import ZArith QArith String Ascii List Bool Lia.
From Stdlib Require Import Floats.SpecFloat DecimalString DecimalZ DecimalPos.
Import ListNotations.

Set Warnings "-register-all".

Local Open Scope string_scope.
Local Open Scope Z_scope.

(** ** Python values *)

(** What [json.loads] can produce.  A [dict] keeps its entries in insertion
    order, which is the order [json.dumps] prints them in. *)
Inductive value : Type :=
| PyNone
| PyBool (b : bool)
| PyInt (n : Z)
| PyFloat (x : spec_float)
| PyStr (s : string)
| PyList (items : list value)
| PyDict (entries : list (string * value)).

Definition dict : Type := list (string * value).

Fixpoint lookup (d : dict) (key : string) : option value :=
  match d with
  | [] => None
  | (k, v) :: rest => if String.eqb k key then Some v else lookup rest key
  end.

(** [d.get(key)]: the default of [dict.get] is [None]. *)
Definition dict_get (d : dict) (key : string) : value :=
  match lookup d key with
  | Some v => v
  | None => PyNone
  end.

(** [x is True] *)
Definition is_True (v : value) : bool :=
  match v with
  | PyBool true => true
  | _ => false
  end.

(** [bool(x)], the truth value tested by [and], [or] and [if]. *)
Definition truthy (v : value) : bool :=
  match v with
  | PyNone => false
  | PyBool b => b
  | PyInt n => negb (n =? 0)
  | PyFloat (S754_zero _) => false
  | PyFloat _ => true
  | PyStr EmptyString => false
  | PyStr _ => true
  | PyList [] => false
  | PyList _ => true
  | PyDict [] => false
  | PyDict _ => true
  end.

(** [a or b] *)
Definition py_or (a b : value) : value := if truthy a then a else b.


(** [json.loads] can fail in three ways: the text is not JSON
    ([json.JSONDecodeError]); the text holds an integer with more digits than
    the interpreter converts (a plain [ValueError], 4300 digits by default);
    the text is nested deeper than the interpreter recurses
    ([RecursionError]). *)
Inductive json_failure : Type :=
| NotJSON (msg : string)
| DigitLimit (msg : string)
| TooDeep.

(** A Python [float] as [float(flag)] builds it: a finite number, read as a
    rational, or an infinity, or NaN. *)
Inductive pyfloat : Type :=
| Finite (q : Q)
| Infinite (minus : bool)
| NaN.

(** [x < 0] *)
Definition negative (x : pyfloat) : Prop :=
  match x with
  | Finite q => (q < 0)%Q
  | Infinite minus => minus = true
  | NaN => False
  end.

(** [time.sleep] refuses an argument that is NaN ([ValueError]), too large in
    magnitude for the clock ([OverflowError]) or negative ([ValueError]), and
    looks at it in that order. *)
Inductive sleep_failure : Type :=
| SleepNaN
| SleepTooLong
| SleepNegative.

(** What the Python runtime does in the calls the script makes.  Exhaustion
    of memory and failures of the operating system on the two streams are
    not part of the model. *)
Class PyLib : Type := {
  (** [json.loads raw] *)
  json_loads : string -> value + json_failure;
  (** [json.dumps(obj, ensure_ascii=False, indent=2)], or [None] when the
      encoder, which recurses once per level of nesting, raises
      [RecursionError]. *)
  json_dumps : value -> option string;
  (** [repr(obj)], which is what [str(obj)] gives for an object that is not a
      string.  The script calls it on values held by an object that
      [json.dumps] has serialized, which are less deeply nested than that
      object. *)
  repr : value -> string;
  (** Whether [sys.stdout] can encode the text; a write of a text it cannot
      encode (a lone surrogate, a character outside the encoding) raises
      [UnicodeEncodeError].  [sys.stderr] replaces what it cannot encode. *)
  stdout_encodes : string -> bool;
  (** Whether and why [time.sleep(seconds)] refuses its argument. *)
  sleep_refusal : pyfloat -> option sleep_failure;
  (** The message of the [ValueError] with which
      [urllib.request.Request(url=url)] refuses an address without a
      scheme. *)
  request_error : string -> option string;
  (** A negative argument is always refused. *)
  sleep_refuses_negative :
    forall seconds,
      negative seconds ->
      sleep_refusal seconds = Some SleepTooLong \/
      sleep_refusal seconds = Some SleepNegative;
  (** The scheme is looked for before the path, so the two addresses of the
      script are accepted or refused together. *)
  request_error_base :
    forall base,
      request_error (base ++ "/housekeeper/health") = None <->
      request_error (base ++ "/housekeeper/self-check") = None
}.

(** [str(x)] *)
Definition py_str `{PyLib} (v : value) : string :=
  match v with
  | PyStr s => s
  | _ => repr v
  end.

(** An [int] inside an f-string. *)
Definition format_int (n : Z) : string := NilZero.string_of_int (Z.to_int n).

(** [s.rstrip(c)] for a one-character [c]. *)
Fixpoint rstrip (s : string) (c : ascii) : string :=
  match s with
  | EmptyString => EmptyString
  | String a rest =>
      match rstrip rest c with
      | EmptyString => if Ascii.eqb a c then EmptyString else String a EmptyString
      | kept => String a kept
      end
  end.

(** [range(lo, hi)] *)
Definition range (lo hi : Z) : list Z :=
  map (fun i => lo + Z.of_nat i) (seq 0 (Z.to_nat (hi - lo))).


(** ** Exceptions, events and the statement monad *)

Inductive exn : Type :=
| HTTPError (code : Z) (body : string)   (* urllib.error.HTTPError *)
| URLError (reason : string)             (* urllib.error.URLError *)
| TimeoutError                           (* socket.timeout *)
| ConnectionResetError
| ValueError (msg : string)
| JSONDecodeError (msg : string)         (* json.JSONDecodeError *)
| RecursionError
| OverflowError
| UnicodeEncodeError.

Definition json_exn (failure : json_failure) : exn :=
  match failure with
  | NotJSON msg => JSONDecodeError msg
  | DigitLimit msg => ValueError msg
  | TooDeep => RecursionError
  end.

Definition sleep_exn (failure : sleep_failure) : exn :=
  match failure with
  | SleepNaN => ValueError "Invalid value NaN (not a number)"
  | SleepTooLong => OverflowError
  | SleepNegative => ValueError "sleep length must be non-negative"
  end.

Record Request : Type := mkRequest {
  req_method : string;
  req_url : string;
  req_headers : list (string * string);
  req_timeout : pyfloat
}.

(** [Stdout] and [Stderr] carry the text of one call of [print], without the
    newline [print] adds, or of one write of [argparse]. *)
Inductive event : Type :=
| Urlopen (req : Request)
| Sleep (seconds : pyfloat)
| Stdout (line : string)
| Stderr (line : string).

Definition trace : Type := list event.

Inductive result (A : Type) : Type :=
| Normal (a : A)
| SystemExit (code : Z)
| Raise (e : exn).
Arguments Normal {A} a.
Arguments SystemExit {A} code.
Arguments Raise {A} e.

Definition Py (A : Type) : Type := trace -> result A * trace.

Definition ret {A} (a : A) : Py A := fun t => (Normal a, t).

Definition bind {A B} (m : Py A) (f : A -> Py B) : Py B :=
  fun t =>
    match m t with
    | (Normal a, t') => f a t'
    | (SystemExit code, t') => (SystemExit code, t')
    | (Raise e, t') => (Raise e, t')
    end.

Declare Scope py_scope.
Delimit Scope py_scope with py.
Notation "x <- m ;; k" := (bind m (fun x => k))
  (at level 100, m at next level, right associativity) : py_scope.
Notation "' pat <- m ;; k" := (bind m (fun x => match x with pat => k end))
  (at level 100, pat pattern, m at next level, right associativity) : py_scope.
Notation "m ;; k" := (bind m (fun _ => k))
  (at level 100, right associativity) : py_scope.
Local Open Scope py_scope.

(** [raise e] *)
Definition raise {A} (e : exn) : Py A := fun t => (Raise e, t).

(** [try: m  except <handled>: handler]; [handler e = None] when [e] is not an
    instance of the handled class, and the exception keeps propagating. *)
Definition try_except {A} (m : Py A) (handler : exn -> option (Py A)) : Py A :=
  fun t =>
    match m t with
    | (Raise e, t') =>
        match handler e with
        | Some h => h t'
        | None => (Raise e, t')
        end
    | other => other
    end.

(** [if cond: body] *)
Definition when (cond : bool) (body : Py unit) : Py unit :=
  if cond then body else ret tt.

(** [for x in xs: body x] *)
Fixpoint for_each {A} (xs : list A) (body : A -> Py unit) : Py unit :=
  match xs with
  | [] => ret tt
  | x :: rest => body x ;; for_each rest body
  end.

(** [sys.stderr.write(text)]: the stream replaces what it cannot encode. *)
Definition stderr_write (text : string) : Py unit :=
  fun t => (Normal tt, (t ++ [Stderr text])%list).

(** [print(line, file=sys.stderr)] *)
Definition print_err (line : string) : Py unit := stderr_write line.

(** [sys.exit(code)] *)
Definition sys_exit {A} (code : Z) : Py A :=
  fun t => (SystemExit code, t).

(** ** The service *)

Definition is_urlopen (e : event) : bool :=
  match e with Urlopen _ => true | _ => false end.

(** Number of calls to [urlopen] made so far. *)
Definition requests_in (t : trace) : nat := length (filter is_urlopen t).

(** What [urlopen] and the reading of the body do with a request: hand back a
    response (its status and decoded body), or raise.  An [HTTPError] carries
    the body that [request_json] reads from it and decodes; when the body
    cannot be read, the answer is the exception the read raises.  The answer
    may depend on the request and on how many requests came before it. *)
Definition Service : Type := nat -> Request -> (Z * string) + exn.

(** The namespace [argparse] builds from accepted flags. *)
Record Args : Type := mkArgs {
  endpoint : string;
  token : string;
  health_retries : Z;
  health_timeout : pyfloat;
  retry_delay : pyfloat
}.

(** [parse_args] with no flag given. *)
Definition default_args : Args :=
  {| endpoint := "http://127.0.0.1:48765";
     token := EmptyString;
     health_retries := 3;
     health_timeout := Finite 2;
     retry_delay := Finite (7 # 10) |}.

(** What [parser.parse_args()] makes of [sys.argv]: a namespace; or the help
    text, with [-h]; or the usage and the error message, with a flag or a
    value it rejects. *)
Inductive command_line : Type :=
| Namespace (args : Args)
| HelpRequested (help : string)
| UsageError (usage message : string).

(** What ends the process: [SystemExit] with a code, or the interpreter's
    handler for an exception nobody caught, which prints a traceback. *)
Inductive termination : Type :=
| Exited (code : Z)
| Traceback (e : exn).

(** The status the parent process sees. *)
Definition exit_status (end_ : termination) : Z :=
  match end_ with
  | Exited code => code
  | Traceback _ => 1
  end.

(** ** The script *)

Section Script.

Context `{PyLib}.
Variable net : Service.
Variable environ : string -> option string.

(** [sys.stdout.write(text)] *)
Definition stdout_write (text : string) : Py unit :=
  fun t =>
    if stdout_encodes text then (Normal tt, (t ++ [Stdout text])%list)
    else (Raise UnicodeEncodeError, t).

(** [print(line)] *)
Definition print (line : string) : Py unit := stdout_write line.

(** [time.sleep(seconds)] *)
Definition time_sleep (seconds : pyfloat) : Py unit :=
  fun t =>
    match sleep_refusal seconds with
    | None => (Normal tt, (t ++ [Sleep seconds])%list)
    | Some failure => (Raise (sleep_exn failure), t)
    end.

(** [json.loads(raw)] *)
Definition loads (raw : string) : Py value :=
  fun t =>
    match json_loads raw with
    | inl obj => (Normal obj, t)
    | inr failure => (Raise (json_exn failure), t)
    end.

(** [json.dumps(obj, ensure_ascii=False, indent=2)] *)
Definition dumps (obj : value) : Py string :=
  fun t =>
    match json_dumps obj with
    | Some text => (Normal text, t)
    | None => (Raise RecursionError, t)
    end.

(** [parser.parse_args()]: [-h] prints the help and exits 0; a rejected
    flag prints the usage and the message on standard error and exits 2. *)
Definition parse_args (command : command_line) : Py Args :=
  match command with
  | Namespace args => ret args
  | HelpRequested help => stdout_write help ;; sys_exit 0
  | UsageError usage message =>
      stderr_write usage ;; stderr_write message ;; sys_exit 2
  end.

(** [urllib.request.Request(url=url, method=method)] followed by the
    [add_header] calls; the constructor raises [ValueError] for an address
    without a scheme. *)
Definition new_request (method url : string) (headers : list (string * string))
    (timeout : pyfloat) : Py Request :=
  match request_error url with
  | Some msg => raise (ValueError msg)
  | None => ret (mkRequest method url headers timeout)
  end.

(** [with urllib.request.urlopen(request, timeout=timeout) as response:
      raw = response.read().decode("utf-8", errors="replace")
      return response.status, raw] *)
Definition urlopen (request : Request) : Py (Z * string) :=
  fun t =>
    match net (requests_in t) request with
    | inl response => (Normal response, (t ++ [Urlopen request])%list)
    | inr e => (Raise e, (t ++ [Urlopen request])%list)
    end.

Definition request_json (method url : string)
    (headers : list (string * string)) (timeout : pyfloat) : Py (Z * string) :=
  request <- new_request method url headers timeout ;;
  try_except (urlopen request)
    (fun error =>
       match error with
       | HTTPError code raw => Some (ret (code, raw))
       | _ => None
       end).

Definition parse_json_or_none (raw : string) : Py (option dict) :=
  try_except
    (obj <- loads raw ;;
     ret (match obj with
          | PyDict d => Some d
          | _ => None
          end))
    (fun error =>
       match error with
       | JSONDecodeError _ => Some (ret None)
       | _ => None
       end).

(** [body and body.get("ok") is True] for an [Optional[Dict]]: [None] and
    the empty [dict] are both false. *)
Definition body_ok (body : option dict) : bool :=
  match body with
  | None => false
  | Some d => truthy (PyDict d) && is_True (dict_get d "ok")
  end.

(** The [for attempt in range(1, retries + 1)] loop of [ensure_health];
    the result tells whether the loop left through [return]. *)
Fixpoint health_attempts (url : string) (retries : Z) (timeout delay : pyfloat)
    (headers : list (string * string)) (attempts : list Z) : Py bool :=
  match attempts with
  | [] => ret false
  | attempt :: rest =>
      '(status, raw) <- request_json "GET" url headers timeout ;;
      body <- parse_json_or_none raw ;;
      if (status =? 200) && body_ok body then ret true
      else
        when (attempt <? retries) (time_sleep delay) ;;
        health_attempts url retries timeout delay headers rest
  end.

Definition ensure_health (base_url : string) (retries : Z)
    (timeout delay : pyfloat) (headers : list (string * string)) : Py unit :=
  let url := base_url ++ "/housekeeper/health" in
  returned <- health_attempts url retries timeout delay headers
                (range 1 (retries + 1)) ;;
  if returned : bool then ret tt
  else
    print_err "health check failed: runtime not ready" ;;
    sys_exit 10.

(** The line printed for one failing check (body of the last loop). *)
Definition failed_line (item : dict) : string :=
  let name := py_str (py_or (dict_get item "name") (PyStr "unknown")) in
  let detail := py_str (py_or (dict_get item "detail") (PyStr EmptyString)) in
  "[FAILED] " ++ name ++ ": " ++ detail.

(** [isinstance(c, dict) and c.get("passed") is not True] *)
Definition is_failed (c : value) : bool :=
  match c with
  | PyDict d => negb (is_True (dict_get d "passed"))
  | _ => false
  end.

Definition main (command : command_line) : Py unit :=
  args <- parse_args command ;;
  let base_url := rstrip (endpoint args) "/" in
  let token :=
    if truthy (PyStr (token args)) then token args
    else match environ "BLAB_HOUSEKEEPER_TOKEN" with
         | Some v => v
         | None => EmptyString
         end in
  let headers :=
    if truthy (PyStr token) then [("Authorization", "Bearer " ++ token)]
    else [] in
  ensure_health base_url (health_retries args) (health_timeout args)
    (retry_delay args) headers ;;
  '(status, raw) <- request_json "GET" (base_url ++ "/housekeeper/self-check")
                      headers (Finite 20) ;;
  body <- parse_json_or_none raw ;;
  match body with
  | None =>
      print raw ;;
      print_err "self-check response is not valid JSON" ;;
      sys_exit 20
  | Some body =>
      report <- dumps (PyDict body) ;;
      print report ;;
      when (400 <=? status)
        (print_err ("self-check endpoint returned HTTP " ++ format_int status) ;;
         sys_exit 20) ;;
      when (is_True (dict_get body "ok")) (sys_exit 0) ;;
      let checks := dict_get body "checks" in
      match checks with
      | PyList items =>
          let failed := filter is_failed items in
          for_each failed
            (fun item =>
               match item with
               | PyDict d => print_err (failed_line d)
               | _ => ret tt
               end)
      | _ => ret tt
      end ;;
      sys_exit 1
  end.

(** [if __name__ == "__main__": main()], started in a world where [t0] has
    already happened. *)
Definition run_script (command : command_line) (t0 : trace)
    : termination * trace :=
  match main command t0 with
  | (Normal _, t) => (Exited 0, t)
  | (SystemExit code, t) => (Exited code, t)
  | (Raise e, t) => (Traceback e, t)
  end.

End Script.

(** ** Vocabulary of the statements *)

(** The value [request_json] returns for an answer of the service: a response
    is returned as it is, an [HTTPError] is turned into its code and body, and
    nothing is returned when any other exception is raised. *)
Definition delivered (answer : (Z * string) + exn) : option (Z * string) :=
  match answer with
  | inl response => Some response
  | inr (HTTPError code raw) => Some (code, raw)
  | inr _ => None
  end.

(** What [parse_json_or_none] does with a body: it returns the object, or
    [None] for a text that is not JSON or not an object, or lets through the
    exception of [json.loads] that is not a [JSONDecodeError]. *)
Definition parsed `{PyLib} (raw : string) : option dict + exn :=
  match json_loads raw with
  | inl (PyDict d) => inl (Some d)
  | inl _ => inl None
  | inr (NotJSON _) => inl None
  | inr failure => inr (json_exn failure)
  end.

(** The readiness condition in the words of the specification: the status is
    exactly 200, the body parses as a JSON object, and the object's [ok] field
    is the boolean [true]. *)
Definition readiness `{PyLib} (status : Z) (raw : string) : Prop :=
  status = 200 /\
  exists d, json_loads raw = inl (PyDict d) /\ lookup d "ok" = Some (PyBool true).

(** A health attempt that came back with a response which [json.loads]
    decodes or rejects as not JSON, and which is not ready. *)
Definition answered_not_ready `{PyLib} (answer : (Z * string) + exn) : Prop :=
  exists status raw,
    delivered answer = Some (status, raw) /\
    (exists body, parsed raw = inl body) /\
    ~ readiness status raw.

(** A health attempt that came back ready. *)
Definition answered_ready `{PyLib} (answer : (Z * string) + exn) : Prop :=
  exists status raw, delivered answer = Some (status, raw) /\ readiness status raw.

(** A transport failure or timeout: [urlopen] raises something that is not an
    [HTTPError]. *)
Definition transport_failure (answer : (Z * string) + exn) (e : exn) : Prop :=
  answer = inr e /\ forall code raw, e <> HTTPError code raw.

(** A request after which the script stops with exception [e]: a transport
    failure, or an answer whose body makes [json.loads] raise something that
    is not a [JSONDecodeError]. *)
Definition attempt_raises `{PyLib} (answer : (Z * string) + exn) (e : exn) : Prop :=
  transport_failure answer e \/
  exists status raw, delivered answer = Some (status, raw) /\ parsed raw = inr e.

Definition base_url_of (args : Args) : string := rstrip (endpoint args) "/".

Definition token_of (environ : string -> option string) (args : Args) : string :=
  if truthy (PyStr (token args)) then token args
  else match environ "BLAB_HOUSEKEEPER_TOKEN" with
       | Some v => v
       | None => EmptyString
       end.

Definition headers_of (environ : string -> option string) (args : Args)
    : list (string * string) :=
  if truthy (PyStr (token_of environ args))
  then [("Authorization", "Bearer " ++ token_of environ args)]
  else [].

Definition health_url (args : Args) : string :=
  base_url_of args ++ "/housekeeper/health".

Definition self_check_url (args : Args) : string :=
  base_url_of args ++ "/housekeeper/self-check".

Definition health_request (environ : string -> option string) (args : Args) : Request :=
  mkRequest "GET" (health_url args) (headers_of environ args) (health_timeout args).

Definition self_check_request (environ : string -> option string) (args : Args) : Request :=
  mkRequest "GET" (self_check_url args) (headers_of environ args) (Finite 20).

(** [j] failed attempts, each followed by the sleep. *)
Fixpoint retried (request : Request) (delay : pyfloat) (j : nat) : trace :=
  match j with
  | O => []
  | S j' => Urlopen request :: Sleep delay :: retried request delay j'
  end.

(** [k] health requests separated by the delay, none after the last. *)
Definition polled (request : Request) (delay : pyfloat) (k : nat) : trace :=
  (retried request delay (Nat.pred k) ++ [Urlopen request])%list.

(** In a run with the namespace [args], started from the empty trace, the
    [k]-th health attempt takes place and is the first one to come back
    ready: the address is one [urllib] accepts, the attempts before it came
    back not ready, and [time.sleep] accepted the delay between them. *)
Definition first_ready_at `{PyLib} (net : Service)
    (environ : string -> option string) (args : Args) (k : nat) : Prop :=
  (1 <= k)%nat /\ Z.of_nat k <= health_retries args /\
  request_error (health_url args) = None /\
  (forall i, (i < Nat.pred k)%nat ->
             answered_not_ready (net i (health_request environ args))) /\
  answered_ready (net (Nat.pred k) (health_request environ args)) /\
  ((1 < k)%nat -> sleep_refusal (retry_delay args) = None).

Definition stdout_of (t : trace) : list string :=
  flat_map (fun e => match e with Stdout line => [line] | _ => [] end) t.

Definition stderr_of (t : trace) : list string :=
  flat_map (fun e => match e with Stderr line => [line] | _ => [] end) t.

Definition sleeps_of (t : trace) : list pyfloat :=
  flat_map (fun e => match e with Sleep d => [d] | _ => [] end) t.

(** Number of requests sent to [url]. *)
Definition requests_to (url : string) (t : trace) : nat :=
  length (filter (fun e => match e with
                           | Urlopen req => String.eqb (req_url req) url
                           | _ => false
                           end) t).

(** In the run with the namespace [args], started from the empty trace, the
    [k]-th health attempt takes place and comes back ready. *)
Definition came_back_ready `{PyLib} (net : Service)
    (environ : string -> option string) (args : Args) (k : nat) : Prop :=
  (1 <= k)%nat /\
  (k <= requests_to (health_url args)
          (snd (run_script net environ (Namespace args) [])))%nat /\
  answered_ready (net (Nat.pred k) (health_request environ args)).

(** The report of failing checks in the words of the specification: one line
    per element that is an object whose [passed] field is not [true], in the
    order of the sequence, and nothing for any other element. *)
Fixpoint failure_report `{PyLib} (items : list value) : list string :=
  match items with
  | [] => []
  | PyDict d :: rest =>
      match lookup d "passed" with
      | Some (PyBool true) => failure_report rest
      | _ => failed_line d :: failure_report rest
      end
  | _ :: rest => failure_report rest
  end.

(** What the failing run reports: the lines of the [checks] field when it is
    a sequence, and nothing otherwise. *)
Definition reported `{PyLib} (body : dict) : list string :=
  match lookup body "checks" with
  | Some (PyList items) => failure_report items
  | _ => []
  end.

Definition is_print (e : event) : bool :=
  match e with Stdout _ | Stderr _ => true | _ => false end.

(** The requests and sleeps of a trace, in order. *)
Definition calls_of (t : trace) : trace :=
  filter (fun e => negb (is_print e)) t.

Definition same_answers (net1 net2 : Service) (n1 n2 : nat) : Prop :=
  forall i request, net1 (n1 + i)%nat request = net2 (n2 + i)%nat request.

(** A statement that does not look at the world: it ends the same way and adds
    the same events whatever happened before. *)
Definition only_appends {A} (m : Py A) : Prop :=
  exists r out, forall t, m t = (r, (t ++ out)%list).

(** A statement is stateless when two executions that are answered alike end
    alike and add the same events, whatever happened before each of them. *)
Definition stateless {A} (m : Service -> Py A) : Prop :=
  forall net1 net2 t1 t2,
    same_answers net1 net2 (requests_in t1) (requests_in t2) ->
    exists r out,
      m net1 t1 = (r, (t1 ++ out)%list) /\ m net2 t2 = (r, (t2 ++ out)%list).

(** ** The ways a run can end *)

(** The ways [main] can end once [parse_args] has returned the namespace
    [args], started from the empty trace, each with the trace it leaves: one
    constructor for each place where the script stops. *)
Inductive main_ends `{PyLib} (net : Service) (environ : string -> option string)
    (args : Args) : result unit -> trace -> Prop :=
| ends_no_attempt :
    health_retries args <= 0 ->
    main_ends net environ args (SystemExit 10)
      [Stderr "health check failed: runtime not ready"]
| ends_bad_address msg :
    1 <= health_retries args ->
    request_error (health_url args) = Some msg ->
    main_ends net environ args (Raise (ValueError msg)) []
| ends_never_ready :
    1 <= health_retries args ->
    request_error (health_url args) = None ->
    (forall i, (i < Z.to_nat (health_retries args))%nat ->
               answered_not_ready (net i (health_request environ args))) ->
    (1 < health_retries args -> sleep_refusal (retry_delay args) = None) ->
    main_ends net environ args (SystemExit 10)
      (polled (health_request environ args) (retry_delay args)
         (Z.to_nat (health_retries args))
       ++ [Stderr "health check failed: runtime not ready"])%list
| ends_health_raise j e :
    (1 <= j)%nat -> Z.of_nat j <= health_retries args ->
    request_error (health_url args) = None ->
    (forall i, (i < Nat.pred j)%nat ->
               answered_not_ready (net i (health_request environ args))) ->
    ((1 < j)%nat -> sleep_refusal (retry_delay args) = None) ->
    attempt_raises (net (Nat.pred j) (health_request environ args)) e ->
    main_ends net environ args (Raise e)
      (polled (health_request environ args) (retry_delay args) j)
| ends_sleep_raise failure :
    1 < health_retries args ->
    request_error (health_url args) = None ->
    answered_not_ready (net 0%nat (health_request environ args)) ->
    sleep_refusal (retry_delay args) = Some failure ->
    main_ends net environ args (Raise (sleep_exn failure))
      [Urlopen (health_request environ args)]
| ends_self_check_raise k e :
    first_ready_at net environ args k ->
    attempt_raises (net k (self_check_request environ args)) e ->
    main_ends net environ args (Raise e)
      (polled (health_request environ args) (retry_delay args) k
       ++ [Urlopen (self_check_request environ args)])%list
| ends_raw_refused k status raw :
    first_ready_at net environ args k ->
    delivered (net k (self_check_request environ args)) = Some (status, raw) ->
    parsed raw = inl None ->
    stdout_encodes raw = false ->
    main_ends net environ args (Raise UnicodeEncodeError)
      (polled (health_request environ args) (retry_delay args) k
       ++ [Urlopen (self_check_request environ args)])%list
| ends_not_json k status raw :
    first_ready_at net environ args k ->
    delivered (net k (self_check_request environ args)) = Some (status, raw) ->
    parsed raw = inl None ->
    stdout_encodes raw = true ->
    main_ends net environ args (SystemExit 20)
      (polled (health_request environ args) (retry_delay args) k
       ++ [Urlopen (self_check_request environ args);
           Stdout raw;
           Stderr "self-check response is not valid JSON"])%list
| ends_report_too_deep k status raw body :
    first_ready_at net environ args k ->
    delivered (net k (self_check_request environ args)) = Some (status, raw) ->
    json_loads raw = inl (PyDict body) ->
    json_dumps (PyDict body) = None ->
    main_ends net environ args (Raise RecursionError)
      (polled (health_request environ args) (retry_delay args) k
       ++ [Urlopen (self_check_request environ args)])%list
| ends_report_refused k status raw body report :
    first_ready_at net environ args k ->
    delivered (net k (self_check_request environ args)) = Some (status, raw) ->
    json_loads raw = inl (PyDict body) ->
    json_dumps (PyDict body) = Some report ->
    stdout_encodes report = false ->
    main_ends net environ args (Raise UnicodeEncodeError)
      (polled (health_request environ args) (retry_delay args) k
       ++ [Urlopen (self_check_request environ args)])%list
| ends_http_error k status raw body report :
    first_ready_at net environ args k ->
    delivered (net k (self_check_request environ args)) = Some (status, raw) ->
    json_loads raw = inl (PyDict body) ->
    json_dumps (PyDict body) = Some report ->
    stdout_encodes report = true ->
    400 <= status ->
    main_ends net environ args (SystemExit 20)
      (polled (health_request environ args) (retry_delay args) k
       ++ [Urlopen (self_check_request environ args);
           Stdout report;
           Stderr ("self-check endpoint returned HTTP " ++ format_int status)])%list
| ends_passed k status raw body report :
    first_ready_at net environ args k ->
    delivered (net k (self_check_request environ args)) = Some (status, raw) ->
    json_loads raw = inl (PyDict body) ->
    json_dumps (PyDict body) = Some report ->
    stdout_encodes report = true ->
    status < 400 ->
    lookup body "ok" = Some (PyBool true) ->
    main_ends net environ args (SystemExit 0)
      (polled (health_request environ args) (retry_delay args) k
       ++ [Urlopen (self_check_request environ args); Stdout report])%list
| ends_checks_failed k status raw body report :
    first_ready_at net environ args k ->
    delivered (net k (self_check_request environ args)) = Some (status, raw) ->
    json_loads raw = inl (PyDict body) ->
    json_dumps (PyDict body) = Some report ->
    stdout_encodes report = true ->
    status < 400 ->
    lookup body "ok" <> Some (PyBool true) ->
    main_ends net environ args (SystemExit 1)
      (polled (health_request environ args) (retry_delay args) k
       ++ Urlopen (self_check_request environ args)
       :: Stdout report
       :: map Stderr (reported body))%list.

(** A service that answers an error status with a returned response where
    [net] raises [HTTPError] for it. *)
Definition without_http_errors (net : Service) : Service :=
  fun n request =>
    match net n request with
    | inr (HTTPError code raw) => inl (code, raw)
    | answer => answer
    end.

(** [n] copies of the character [c]. *)
Fixpoint copies (c : ascii) (n : nat) : string :=
  match n with
  | O => EmptyString
  | S n' => String c (copies c n')
  end.

(** The last character of a string, if any. *)
Fixpoint last_char (s : string) : option ascii :=
  match s with
  | EmptyString => None
  | String a EmptyString => Some a
  | String _ rest => last_char rest
  end.


(** ** Sample data for the examples *)

Definition dquote : string := String "034"%char EmptyString.
Definition newline : string := String "010"%char EmptyString.

(** [{"ok": true}] *)
Definition ok_text : string := "{" ++ dquote ++ "ok" ++ dquote ++ ": true}".

(** [{"ok": false, "checks": [{"name": "disk", "passed": false,
      "detail": "low space"}, {"name": "mem", "passed": true}]}] *)
Definition failing_text : string :=
  "{" ++ dquote ++ "ok" ++ dquote ++ ": false, "
      ++ dquote ++ "checks" ++ dquote ++ ": [{"
      ++ dquote ++ "name" ++ dquote ++ ": " ++ dquote ++ "disk" ++ dquote ++ ", "
      ++ dquote ++ "passed" ++ dquote ++ ": false, "
      ++ dquote ++ "detail" ++ dquote ++ ": " ++ dquote ++ "low space" ++ dquote
      ++ "}, {"
      ++ dquote ++ "name" ++ dquote ++ ": " ++ dquote ++ "mem" ++ dquote ++ ", "
      ++ dquote ++ "passed" ++ dquote ++ ": true}]}".

(** [{"ok": true, "note": "\ud800"}]: the escape stands for a lone
    surrogate. *)
Definition surrogate_text : string :=
  "{" ++ dquote ++ "ok" ++ dquote ++ ": true, "
      ++ dquote ++ "note" ++ dquote ++ ": " ++ dquote ++ "\ud800" ++ dquote ++ "}".

(** A text of 5000 digits: valid JSON, and more digits than [int] converts. *)
Definition digits_text : string := copies "1" 5000.

(** [{"a": {"a": ... 1 ...}}] with [n] levels of nesting. *)
Fixpoint nested (n : nat) : value :=
  match n with
  | O => PyInt 1
  | S n' => PyDict [("a", nested n')]
  end.

Fixpoint nested_text (n : nat) : string :=
  match n with
  | O => "1"
  | S n' => "{" ++ dquote ++ "a" ++ dquote ++ ": " ++ nested_text n' ++ "}"
  end.

(** An object nested 995 levels deep: [json.loads] decodes it, the encoder
    of [json.dumps] does not get through it. *)
Definition deep_text : string := nested_text 995.
Definition deep_body : dict := [("a", nested 994)].

Definition ok_body : dict := [("ok", PyBool true)].

Definition failing_body : dict :=
  [("ok", PyBool false);
   ("checks",
    PyList [PyDict [("name", PyStr "disk"); ("passed", PyBool false);
                    ("detail", PyStr "low space")];
            PyDict [("name", PyStr "mem"); ("passed", PyBool true)]])].

(** The character U+D800 as the three bytes a lenient UTF-8 writer gives. *)
Definition lone_surrogate : string :=
  String "237"%char (String "160"%char (String "128"%char EmptyString)).

Definition surrogate_body : dict :=
  [("ok", PyBool true); ("note", PyStr lone_surrogate)].

Definition digits_message : string :=
  "Exceeds the limit (4300 digits) for integer string conversion: "
  ++ "value has 5000 digits; use sys.set_int_max_str_digits() "
  ++ "to increase the limit".

(** [json.loads] on the texts above and on [[1]]; every other text of the
    examples ([not json], [starting]) is not JSON. *)
Definition sample_loads (raw : string) : value + json_failure :=
  if String.eqb raw ok_text then inl (PyDict ok_body)
  else if String.eqb raw failing_text then inl (PyDict failing_body)
  else if String.eqb raw surrogate_text then inl (PyDict surrogate_body)
  else if String.eqb raw "[1]" then inl (PyList [PyInt 1])
  else if String.eqb raw deep_text then inl (PyDict deep_body)
  else if String.eqb raw digits_text
       then inr (DigitLimit digits_message)
  else inr (NotJSON "Expecting value").

Fixpoint join (sep : string) (parts : list string) : string :=
  match parts with
  | [] => EmptyString
  | [part] => part
  | part :: rest => part ++ sep ++ join sep rest
  end.

(** [json.dumps(., ensure_ascii=False, indent=2)] for objects without floats
    whose strings need no escape, which is all the samples hold. *)
Fixpoint sample_dumps_at (indent : nat) (v : value) {struct v} : string :=
  match v with
  | PyNone => "null"
  | PyBool true => "true"
  | PyBool false => "false"
  | PyInt n => format_int n
  | PyFloat _ => "NaN"
  | PyStr s => dquote ++ s ++ dquote
  | PyList [] => "[]"
  | PyList items =>
      "[" ++ newline
      ++ join ("," ++ newline)
           (map (fun item => copies " " (indent + 2)
                             ++ sample_dumps_at (indent + 2) item) items)
      ++ newline ++ copies " " indent ++ "]"
  | PyDict [] => "{}"
  | PyDict entries =>
      "{" ++ newline
      ++ join ("," ++ newline)
           (map (fun entry =>
                   match entry with
                   | (key, item) =>
                       copies " " (indent + 2) ++ dquote ++ key ++ dquote ++ ": "
                       ++ sample_dumps_at (indent + 2) item
                   end) entries)
      ++ newline ++ copies " " indent ++ "}"
  end.

(** Levels of nesting of a value. *)
Fixpoint depth (v : value) : nat :=
  match v with
  | PyList items => S (list_max (map depth items))
  | PyDict entries =>
      S (list_max (map (fun entry => match entry with (_, item) => depth item end)
                       entries))
  | _ => 0
  end.

(** The encoder runs out of stack a few frames before the limit of 1000. *)
Definition sample_dumps (v : value) : option string :=
  if (depth v <=? 990)%nat then Some (sample_dumps_at 0 v) else None.

Definition sample_repr (v : value) : string :=
  match v with
  | PyNone => "None"
  | PyBool true => "True"
  | PyBool false => "False"
  | PyInt n => format_int n
  | _ => "<object>"
  end.

(** A standard output in UTF-8: it encodes everything but surrogates. *)
Fixpoint has_surrogate (s : string) : bool :=
  match s with
  | String a (String b _ as rest) =>
      (Ascii.eqb a "237" && (160 <=? nat_of_ascii b)%nat) || has_surrogate rest
  | _ => false
  end.

Definition sample_encodes (text : string) : bool := negb (has_surrogate text).

(** [time.sleep] with a clock of 64-bit nanoseconds. *)
Definition sample_sleep (seconds : pyfloat) : option sleep_failure :=
  match seconds with
  | NaN => Some SleepNaN
  | Infinite _ => Some SleepTooLong
  | Finite q =>
      if Qle_bool (- 9223372036) q && Qle_bool q 9223372036
      then (if Qle_bool 0 q then None else Some SleepNegative)
      else Some SleepTooLong
  end.

(** An address has a scheme when a colon comes before any slash and after
    at least one character. *)
Fixpoint scheme_ends (url : string) (started : bool) : bool :=
  match url with
  | EmptyString => false
  | String c rest =>
      if Ascii.eqb c ":" then started
      else if Ascii.eqb c "/" then false
      else scheme_ends rest true
  end.

Definition sample_request_error (url : string) : option string :=
  if scheme_ends url false then None
  else Some ("unknown url type: '" ++ url ++ "'").

(** The reports [json.dumps] gives for the sample objects. *)
Definition ok_report : string := sample_dumps_at 0 (PyDict ok_body).
Definition failing_report : string := sample_dumps_at 0 (PyDict failing_body).

(** The runtime of the examples. *)
Definition sample_lib : PyLib.
Proof.
  refine {| json_loads := sample_loads;
            json_dumps := sample_dumps;
            repr := sample_repr;
            stdout_encodes := sample_encodes;
            sleep_refusal := sample_sleep;
            request_error := sample_request_error;
            sleep_refuses_negative := _;
            request_error_base := _ |}.
  - intros [q|[|]|] Hneg; cbn in Hneg; try discriminate; try (now left);
      try contradiction.
    unfold sample_sleep.
    destruct (Qle_bool (- 9223372036) q && Qle_bool q 9223372036); [|now left].
    destruct (Qle_bool 0 q) eqn:Hsign; [|now right].
    apply Qle_bool_iff in Hsign. now apply Qle_not_lt in Hsign.
  - intros base. unfold sample_request_error.
    assert (Hpath : forall started path1 path2,
              scheme_ends (base ++ String "/" path1) started
              = scheme_ends (base ++ String "/" path2) started).
    { induction base as [|c base IH]; intros started path1 path2; cbn.
      - reflexivity.
      - destruct (Ascii.eqb c ":"); [reflexivity|].
        destruct (Ascii.eqb c "/"); [reflexivity|apply IH]. }
    replace (scheme_ends (base ++ "/housekeeper/health") false)
      with (scheme_ends (base ++ "/housekeeper/self-check") false)
      by apply Hpath.
    destruct (scheme_ends (base ++ "/housekeeper/self-check") false);
      split; intros E; [reflexivity|reflexivity|discriminate|discriminate].
Defined.

Definition no_environ : string -> option string := fun _ => None.

(** A runtime that is up: every request is answered 200 [{"ok": true}]. *)
Definition healthy_service : Service := fun _ _ => inl (200, ok_text).

(** A runtime that is not listening: every connection is refused. *)
Definition refusing_service : Service :=
  fun _ _ => inr (URLError "[Errno 111] Connection refused").

(** A runtime that answers 503 to every request. *)
Definition starting_service : Service :=
  fun _ _ => inr (HTTPError 503 "starting").

(** Ready at once, then the given answer. *)
Definition ready_then (answer : (Z * string) + exn) : Service :=
  fun n _ => match n with
             | O => inl (200, ok_text)
             | _ => answer
             end.

(** Ready at once, then the connection of the self-check times out. *)
Definition stalling_service : Service := ready_then (inr TimeoutError).

(** Not ready twice, ready at the third attempt, then the given answer. *)
Definition slow_service (answer : (Z * string) + exn) : Service :=
  fun n _ => match n with
             | 0%nat | 1%nat => inr (HTTPError 503 "starting")
             | 2%nat => inl (200, ok_text)
             | _ => answer
             end.

Definition refused : exn := URLError "[Errno 111] Connection refused".

(** A runtime that refuses the first connection and is up afterwards. *)
Definition late_service : Service :=
  fun n _ => match n with
             | O => inr refused
             | _ => inl (200, ok_text)
             end.

(** The two requests of a run with the default command line. *)
Definition health : Request := health_request no_environ default_args.
Definition self_check : Request := self_check_request no_environ default_args.

(** A command line with a token, and an environment with another one. *)
Definition token_args : Args :=
  {| endpoint := "http://127.0.0.1:48765/";
     token := "secret";
     health_retries := 3;
     health_timeout := Finite 2;
     retry_delay := Finite (7 # 10) |}.

Definition token_environ : string -> option string :=
  fun name =>
    if String.eqb name "BLAB_HOUSEKEEPER_TOKEN" then Some "from-env"%string
    else None.

(** A command line with a negative delay. *)
Definition hasty_args : Args :=
  {| endpoint := "http://127.0.0.1:48765";
     token := EmptyString;
     health_retries := 3;
     health_timeout := Finite 2;
     retry_delay := Finite (- 1 # 2) |}.

(** A command line with a delay of 1e10 seconds. *)
Definition patient_args : Args :=
  {| endpoint := "http://127.0.0.1:48765";
     token := EmptyString;
     health_retries := 3;
     health_timeout := Finite 2;
     retry_delay := Finite 10000000000 |}.

(** A command line with an endpoint that has no scheme. *)
Definition bare_args : Args :=
  {| endpoint := "127.0.0.1";
     token := EmptyString;
     health_retries := 3;
     health_timeout := Finite 2;
     retry_delay := Finite (7 # 10) |}.

(** * Properties *)

Local Open Scope list_scope.

Section Properties.

Context `{PyLib}.
Variable net : Service.
Variable environ : string -> option string.

(** ** Traces and the monad *)

Lemma requests_in_app (t1 t2 : trace) :
  requests_in (t1 ++ t2) = (requests_in t1 + requests_in t2)%nat.
Proof. unfold requests_in. now rewrite filter_app, length_app. Qed.

Lemma requests_in_retried request delay j :
  requests_in (retried request delay j) = j.
Proof.
  induction j as [|j IH]; [reflexivity|].
  unfold requests_in in *. cbn. now rewrite IH.
Qed.

Lemma requests_in_polled request delay k :
  (1 <= k)%nat -> requests_in (polled request delay k) = k.
Proof.
  intros Hk. unfold polled. rewrite requests_in_app, requests_in_retried.
  cbn. lia.
Qed.

Lemma bind_normal {A B} (m : Py A) (f : A -> Py B) t a t' :
  m t = (Normal a, t') -> bind m f t = f a t'.
Proof. unfold bind. now intros ->. Qed.

Lemma bind_raise {A B} (m : Py A) (f : A -> Py B) t e t' :
  m t = (Raise e, t') -> bind m f t = (Raise e, t').
Proof. unfold bind. now intros ->. Qed.

Lemma bind_exit {A B} (m : Py A) (f : A -> Py B) t code t' :
  m t = (SystemExit code, t') -> bind m f t = (SystemExit code, t').
Proof. unfold bind. now intros ->. Qed.

(** ** [request_json] *)

Lemma request_json_delivered method url headers timeout t response :
  request_error url = None ->
  delivered (net (requests_in t) (mkRequest method url headers timeout))
    = Some response ->
  request_json net method url headers timeout t
    = (Normal response, (t ++ [Urlopen (mkRequest method url headers timeout)])%list).
Proof.
  intros Hurl. unfold request_json, new_request, bind, ret, try_except, urlopen.
  rewrite Hurl. destruct (net _ _) as [r|e]; cbn.
  - now intros [= ->].
  - destruct e; cbn; try discriminate. now intros [= <-].
Qed.

Lemma request_json_raises method url headers timeout t e :
  request_error url = None ->
  transport_failure (net (requests_in t) (mkRequest method url headers timeout)) e ->
  request_json net method url headers timeout t
    = (Raise e, (t ++ [Urlopen (mkRequest method url headers timeout)])%list).
Proof.
  intros Hurl [Hnet Hkind].
  unfold request_json, new_request, bind, ret, try_except, urlopen.
  rewrite Hurl, Hnet. destruct e; try reflexivity.
  now elim (Hkind code body).
Qed.

Lemma request_json_refused method url headers timeout t msg :
  request_error url = Some msg ->
  request_json net method url headers timeout t = (Raise (ValueError msg), t).
Proof.
  intros Hurl. unfold request_json, new_request, bind, raise. now rewrite Hurl.
Qed.

(** ** [parse_json_or_none] and the readiness test *)

Lemma parse_json_or_none_parsed raw t :
  parse_json_or_none raw t
  = match parsed raw with
    | inl body => (Normal body, t)
    | inr e => (Raise e, t)
    end.
Proof.
  unfold parse_json_or_none, parsed, try_except, bind, loads, ret.
  destruct (json_loads raw) as [v|[msg|msg|]]; try reflexivity.
  now destruct v.
Qed.

Lemma parse_json_or_none_returns raw body t :
  parsed raw = inl body -> parse_json_or_none raw t = (Normal body, t).
Proof. intros Hp. now rewrite parse_json_or_none_parsed, Hp. Qed.

Lemma parse_json_or_none_raises raw e t :
  parsed raw = inr e -> parse_json_or_none raw t = (Raise e, t).
Proof. intros Hp. now rewrite parse_json_or_none_parsed, Hp. Qed.

Lemma dumps_returns obj report t :
  json_dumps obj = Some report -> dumps obj t = (Normal report, t).
Proof. intros E. unfold dumps. now rewrite E. Qed.

Lemma dumps_raises obj t :
  json_dumps obj = None -> dumps obj t = (Raise RecursionError, t).
Proof. intros E. unfold dumps. now rewrite E. Qed.

Lemma parsed_object raw body :
  parsed raw = inl (Some body) <-> json_loads raw = inl (PyDict body).
Proof.
  unfold parsed.
  destruct (json_loads raw) as [[]|[]]; split; intros [=]; subst; reflexivity.
Qed.

(** [parse_json_or_none] gives [None] exactly for a text that is not JSON
    and for a text that decodes to something other than an object. *)
Lemma parsed_none raw :
  parsed raw = inl None <->
  (exists msg, json_loads raw = inr (NotJSON msg)) \/
  (exists v, json_loads raw = inl v /\ forall d, v <> PyDict d).
Proof.
  unfold parsed. destruct (json_loads raw) as [v|[msg|msg|]].
  - split.
    + destruct v; try discriminate; intros _; right; eexists; split;
        try reflexivity; discriminate.
    + intros [[msg [=]]|(v' & [= <-] & Hv)].
      destruct v; try reflexivity. now elim (Hv entries).
  - split; [intros _; left; now exists msg|reflexivity].
  - split; [discriminate|intros [[m [=]]|(v & [=] & _)]].
  - split; [discriminate|intros [[m [=]]|(v & [=] & _)]].
Qed.

(** The exceptions [parse_json_or_none] lets through are those of
    [json.loads] other than [JSONDecodeError]. *)
Lemma parsed_raises raw e :
  parsed raw = inr e <->
  (exists msg, json_loads raw = inr (DigitLimit msg) /\ e = ValueError msg) \/
  (json_loads raw = inr TooDeep /\ e = RecursionError).
Proof.
  unfold parsed. destruct (json_loads raw) as [v|[msg|msg|]]; cbn.
  - split; [now destruct v|intros [(m & [=] & _)|([=] & _)]].
  - split; [discriminate|intros [(m & [=] & _)|([=] & _)]].
  - split.
    + intros [= <-]. left. now exists msg.
    + intros [(m & [= <-] & ->)|([=] & _)]. reflexivity.
  - split.
    + intros [= <-]. now right.
    + intros [(m & [=] & _)|(_ & ->)]. reflexivity.
Qed.

Lemma body_ok_spec (body : option dict) :
  body_ok body = true <->
  exists d, body = Some d /\ lookup d "ok" = Some (PyBool true).
Proof.
  destruct body as [d|]; cbn;
    [|split; [discriminate|intros (d & [=] & _)]].
  split.
  - destruct d as [|p d]; [discriminate|]. cbn [truthy andb].
    unfold dict_get. destruct (lookup (p :: d) "ok") as [v|] eqn:Hl; [|discriminate].
    destruct v as [|[]| | | | |]; try discriminate.
    intros _. now exists (p :: d).
  - intros (d' & [= <-] & Hl).
    destruct d as [|p d]; [discriminate|]. cbn [truthy andb].
    unfold dict_get. now rewrite Hl.
Qed.

(** The test of the loop is the readiness condition of the specification. *)
Lemma ready_test status raw body :
  parsed raw = inl body ->
  ((status =? 200) && body_ok body = true <-> readiness status raw).
Proof.
  intros Hp. unfold readiness. rewrite andb_true_iff, Z.eqb_eq, body_ok_spec.
  split; intros [Hs (d & Hd & Hok)]; (split; [exact Hs|]); exists d.
  - subst body. now apply parsed_object in Hp.
  - apply parsed_object in Hd. split; [congruence|exact Hok].
Qed.

Lemma not_ready_test status raw body :
  parsed raw = inl body -> ~ readiness status raw ->
  (status =? 200) && body_ok body = false.
Proof.
  intros Hp Hnot.
  destruct ((status =? 200) && body_ok body) eqn:Htest; [|reflexivity].
  now apply (ready_test _ _ _ Hp) in Htest.
Qed.

Lemma readiness_parsed status raw :
  readiness status raw ->
  exists d, parsed raw = inl (Some d) /\ (status =? 200) && body_ok (Some d) = true.
Proof.
  intros Hready. pose proof Hready as [_ (d & Hd & _)].
  apply parsed_object in Hd. exists d. split; [exact Hd|].
  now apply (ready_test _ _ _ Hd).
Qed.

Lemma sleep_accepted seconds t :
  sleep_refusal seconds = None ->
  time_sleep seconds t = (Normal tt, t ++ [Sleep seconds]).
Proof. intros Hs. unfold time_sleep. now rewrite Hs. Qed.

Lemma sleep_refused seconds failure t :
  sleep_refusal seconds = Some failure ->
  time_sleep seconds t = (Raise (sleep_exn failure), t).
Proof. intros Hs. unfold time_sleep. now rewrite Hs. Qed.

(** ** [range] *)

Lemma map_seq_from {A} (f : nat -> A) len start :
  map f (seq start len) = map (fun i => f (start + i)%nat) (seq 0 len).
Proof.
  revert f start. induction len as [|len IH]; intros f start; [reflexivity|].
  cbn [seq map]. rewrite Nat.add_0_r. f_equal.
  rewrite (IH f (S start)), (IH (fun i => f (start + i)%nat) 1%nat).
  apply map_ext. intros i. f_equal. lia.
Qed.

Lemma range_length lo hi : length (range lo hi) = Z.to_nat (hi - lo).
Proof. unfold range. now rewrite length_map, length_seq. Qed.

Lemma range_nil lo hi : hi <= lo -> range lo hi = [].
Proof.
  intros Hle. unfold range.
  replace (Z.to_nat (hi - lo)) with 0%nat by lia. reflexivity.
Qed.

Lemma range_app lo mid hi :
  lo <= mid <= hi -> range lo hi = range lo mid ++ range mid hi.
Proof.
  intros Hm. unfold range.
  replace (Z.to_nat (hi - lo))
    with (Z.to_nat (mid - lo) + Z.to_nat (hi - mid))%nat by lia.
  rewrite seq_app, map_app. f_equal.
  rewrite map_seq_from. apply map_ext. intros i. lia.
Qed.

Lemma range_cons lo hi : lo < hi -> range lo hi = lo :: range (lo + 1) hi.
Proof.
  intros Hlt. rewrite (range_app lo (lo + 1) hi) by lia.
  unfold range at 1. replace (Z.to_nat (lo + 1 - lo)) with 1%nat by lia.
  cbn. f_equal. lia.
Qed.

Lemma range_below lo hi : Forall (fun x => x < hi) (range lo hi).
Proof.
  unfold range. apply Forall_forall. intros x Hx.
  apply in_map_iff in Hx as (i & <- & Hi). apply in_seq in Hi. lia.
Qed.

(** ** The retry loop *)

Section Loop.

Variables (url : string) (retries : Z) (timeout delay : pyfloat).
Variable headers : list (string * string).
Hypothesis Hurl : request_error url = None.

Let request := mkRequest "GET" url headers timeout.
Let attempts_from := health_attempts net url retries timeout delay headers.

(** Attempts that come back not ready and are not the last one each cost
    one request and one sleep, and the loop goes on. *)
Lemma health_attempts_retry (failing rest : list Z) t :
  Forall (fun attempt => attempt < retries) failing ->
  (failing <> [] -> sleep_refusal delay = None) ->
  (forall i, (i < length failing)%nat ->
             answered_not_ready (net (requests_in t + i)%nat request)) ->
  attempts_from (failing ++ rest) t
    = attempts_from rest (t ++ retried request delay (length failing)).
Proof.
  subst attempts_from request.
  revert t. induction failing as [|attempt failing IH]; intros t Hlt Hdelay Hnet.
  - cbn. now rewrite app_nil_r.
  - destruct (Hnet 0%nat) as (status & raw & Hgot & [body Hbody] & Hnot); [cbn; lia|].
    rewrite Nat.add_0_r in Hgot.
    cbn [app health_attempts].
    rewrite (bind_normal _ _ _ _ _ (request_json_delivered _ _ _ _ _ _ Hurl Hgot)).
    rewrite (bind_normal _ _ _ _ _ (parse_json_or_none_returns _ _ _ Hbody)).
    rewrite (not_ready_test _ _ _ Hbody Hnot).
    inversion Hlt as [|? ? Hattempt Hlt']; subst.
    apply Z.ltb_lt in Hattempt. rewrite Hattempt. unfold when.
    rewrite (bind_normal _ _ _ _ _
               (sleep_accepted _ _ (Hdelay ltac:(discriminate)))).
    rewrite IH.
    + cbn [length retried]. now rewrite <- !app_assoc.
    + exact Hlt'.
    + intros _. apply Hdelay. discriminate.
    + intros i Hi. rewrite !requests_in_app. cbn.
      replace (requests_in t + 1 + 0 + i)%nat with (requests_in t + S i)%nat by lia.
      apply Hnet. cbn. lia.
Qed.

(** A ready attempt leaves the loop at once. *)
Lemma health_attempts_ready attempt rest t :
  answered_ready (net (requests_in t) request) ->
  attempts_from (attempt :: rest) t = (Normal true, t ++ [Urlopen request]).
Proof.
  subst attempts_from request.
  intros (status & raw & Hgot & (d & Hbody & Htest)%readiness_parsed).
  cbn [health_attempts].
  rewrite (bind_normal _ _ _ _ _ (request_json_delivered _ _ _ _ _ _ Hurl Hgot)).
  rewrite (bind_normal _ _ _ _ _ (parse_json_or_none_returns _ _ _ Hbody)).
  now rewrite Htest.
Qed.

(** The last attempt is not followed by a sleep. *)
Lemma health_attempts_last attempt t :
  retries <= attempt ->
  answered_not_ready (net (requests_in t) request) ->
  attempts_from [attempt] t = (Normal false, t ++ [Urlopen request]).
Proof.
  subst attempts_from request.
  intros Hlast (status & raw & Hgot & [body Hbody] & Hnot).
  cbn [health_attempts].
  rewrite (bind_normal _ _ _ _ _ (request_json_delivered _ _ _ _ _ _ Hurl Hgot)).
  rewrite (bind_normal _ _ _ _ _ (parse_json_or_none_returns _ _ _ Hbody)).
  rewrite (not_ready_test _ _ _ Hbody Hnot).
  apply Z.ltb_ge in Hlast. now rewrite Hlast.
Qed.

(** An exception raised by the request or by the decoding of its body
    leaves the loop with it. *)
Lemma health_attempts_raise attempt rest t e :
  attempt_raises (net (requests_in t) request) e ->
  attempts_from (attempt :: rest) t = (Raise e, t ++ [Urlopen request]).
Proof.
  subst attempts_from request.
  intros [Hfail|(status & raw & Hgot & Hbody)]; cbn [health_attempts].
  - now rewrite (bind_raise _ _ _ _ _ (request_json_raises _ _ _ _ _ _ Hurl Hfail)).
  - rewrite (bind_normal _ _ _ _ _ (request_json_delivered _ _ _ _ _ _ Hurl Hgot)).
    now rewrite (bind_raise _ _ _ _ _ (parse_json_or_none_raises _ _ _ Hbody)).
Qed.

(** A refused sleep leaves the loop with the exception of [time.sleep]. *)
Lemma health_attempts_sleep_raise attempt rest t failure :
  attempt < retries ->
  answered_not_ready (net (requests_in t) request) ->
  sleep_refusal delay = Some failure ->
  attempts_from (attempt :: rest) t
    = (Raise (sleep_exn failure), t ++ [Urlopen request]).
Proof.
  subst attempts_from request.
  intros Hmore (status & raw & Hgot & [body Hbody] & Hnot) Hsleep.
  cbn [health_attempts].
  rewrite (bind_normal _ _ _ _ _ (request_json_delivered _ _ _ _ _ _ Hurl Hgot)).
  rewrite (bind_normal _ _ _ _ _ (parse_json_or_none_returns _ _ _ Hbody)).
  rewrite (not_ready_test _ _ _ Hbody Hnot).
  apply Z.ltb_lt in Hmore. rewrite Hmore. unfold when.
  now rewrite (bind_raise _ _ _ _ _ (sleep_refused _ _ _ Hsleep)).
Qed.

End Loop.

(** ** [ensure_health] *)

Section Health.

Variables (base_url : string) (retries : Z) (timeout delay : pyfloat).
Variable headers : list (string * string).

Let request :=
  mkRequest "GET" (base_url ++ "/housekeeper/health")%string headers timeout.

(** When the first [j - 1] attempts come back not ready, the loop reaches
    attempt [j] after [j - 1] requests and sleeps. *)
Lemma health_attempts_reach j :
  request_error (base_url ++ "/housekeeper/health")%string = None ->
  (1 <= j)%nat -> Z.of_nat j <= retries ->
  (forall i, (i < Nat.pred j)%nat -> answered_not_ready (net i request)) ->
  ((1 < j)%nat -> sleep_refusal delay = None) ->
  health_attempts net (base_url ++ "/housekeeper/health")%string retries
      timeout delay headers (range 1 (retries + 1)) []
  = health_attempts net (base_url ++ "/housekeeper/health")%string retries
      timeout delay headers
      (Z.of_nat j :: range (Z.of_nat j + 1) (retries + 1))
      (retried request delay (Nat.pred j)).
Proof.
  intros Hurl Hj Hle Hnet Hdelay.
  rewrite (range_app 1 (Z.of_nat j) (retries + 1)) by lia.
  rewrite (range_cons (Z.of_nat j)) by lia.
  assert (Hlen : length (range 1 (Z.of_nat j)) = Nat.pred j)
    by (rewrite range_length; lia).
  rewrite health_attempts_retry.
  - now rewrite Hlen.
  - exact Hurl.
  - eapply Forall_impl; [|apply range_below]. cbn. intros; lia.
  - intros Hne. apply Hdelay.
    destruct j as [|[|j]]; [lia| |lia]. now elim Hne.
  - intros i Hi. rewrite Hlen in Hi. now apply Hnet.
Qed.

Lemma ensure_health_ready k :
  request_error (base_url ++ "/housekeeper/health")%string = None ->
  (1 <= k)%nat -> Z.of_nat k <= retries ->
  (forall i, (i < Nat.pred k)%nat -> answered_not_ready (net i request)) ->
  answered_ready (net (Nat.pred k) request) ->
  ((1 < k)%nat -> sleep_refusal delay = None) ->
  ensure_health net base_url retries timeout delay headers []
    = (Normal tt, polled request delay k).
Proof.
  intros Hurl Hk Hle Hnet Hready Hdelay. unfold ensure_health, bind.
  rewrite health_attempts_reach with (j := k) by assumption.
  rewrite health_attempts_ready; [reflexivity|exact Hurl|].
  now rewrite requests_in_retried.
Qed.

Lemma ensure_health_exhausted :
  request_error (base_url ++ "/housekeeper/health")%string = None ->
  1 <= retries ->
  (forall i, (i < Z.to_nat retries)%nat -> answered_not_ready (net i request)) ->
  (1 < retries -> sleep_refusal delay = None) ->
  ensure_health net base_url retries timeout delay headers []
    = (SystemExit 10,
       polled request delay (Z.to_nat retries)
         ++ [Stderr "health check failed: runtime not ready"]).
Proof.
  intros Hurl Hr Hnet Hdelay. unfold ensure_health, bind.
  rewrite health_attempts_reach with (j := Z.to_nat retries);
    [|exact Hurl|lia|lia|intros i Hi; apply Hnet; lia|intros; apply Hdelay; lia].
  rewrite (range_nil (Z.of_nat (Z.to_nat retries) + 1)) by lia.
  rewrite health_attempts_last; [reflexivity|exact Hurl|lia|].
  rewrite requests_in_retried. apply Hnet. lia.
Qed.

Lemma ensure_health_raise j e :
  request_error (base_url ++ "/housekeeper/health")%string = None ->
  (1 <= j)%nat -> Z.of_nat j <= retries ->
  (forall i, (i < Nat.pred j)%nat -> answered_not_ready (net i request)) ->
  ((1 < j)%nat -> sleep_refusal delay = None) ->
  attempt_raises (net (Nat.pred j) request) e ->
  ensure_health net base_url retries timeout delay headers []
    = (Raise e, polled request delay j).
Proof.
  intros Hurl Hj Hle Hnet Hdelay Hfail. unfold ensure_health, bind.
  rewrite health_attempts_reach with (j := j) by assumption.
  rewrite health_attempts_raise with (e := e); [reflexivity|exact Hurl|].
  now rewrite requests_in_retried.
Qed.

(** With at least two attempts allowed and a delay [time.sleep] refuses, a
    first attempt that is not ready is followed by its exception. *)
Lemma ensure_health_sleep_raise failure :
  request_error (base_url ++ "/housekeeper/health")%string = None ->
  1 < retries ->
  answered_not_ready (net 0%nat request) ->
  sleep_refusal delay = Some failure ->
  ensure_health net base_url retries timeout delay headers []
  = (Raise (sleep_exn failure), [Urlopen request]).
Proof.
  intros Hurl Hr Hnot Hsleep. unfold ensure_health. cbv zeta. apply bind_raise.
  rewrite range_cons by lia.
  now rewrite health_attempts_sleep_raise with (failure := failure).
Qed.

Lemma ensure_health_no_attempt t :
  retries <= 0 ->
  ensure_health net base_url retries timeout delay headers t
    = (SystemExit 10, t ++ [Stderr "health check failed: runtime not ready"]).
Proof.
  intros Hr. unfold ensure_health. now rewrite range_nil by lia.
Qed.

(** An address [urllib] refuses ends the first attempt before any request. *)
Lemma ensure_health_bad_address msg t :
  1 <= retries ->
  request_error (base_url ++ "/housekeeper/health")%string = Some msg ->
  ensure_health net base_url retries timeout delay headers t
    = (Raise (ValueError msg), t).
Proof.
  intros Hr Hurl. unfold ensure_health. cbv zeta. apply bind_raise.
  rewrite range_cons by lia. cbn [health_attempts].
  now rewrite (bind_raise _ _ _ _ _ (request_json_refused _ _ _ _ _ _ Hurl)).
Qed.

End Health.

(** ** The report of failing checks *)

Lemma for_each_failed (items : list value) t :
  for_each (filter is_failed items)
    (fun item => match item with
                 | PyDict d => print_err (failed_line d)
                 | _ => ret tt
                 end) t
  = (Normal tt, t ++ map Stderr (failure_report items)).
Proof.
  revert t. induction items as [|c items IH]; intros t.
  - cbn. now rewrite app_nil_r.
  - destruct c as [| | | | | |d]; cbn [filter is_failed failure_report]; try apply IH.
    unfold dict_get.
    destruct (lookup d "passed") as [[|[|]| | | | |]|];
      cbn [is_True negb]; try apply IH;
      cbn [for_each map]; unfold bind, print_err, stderr_write;
      rewrite IH, <- app_assoc; reflexivity.
Qed.

(** ** [main] up to the self-check request *)

Lemma main_namespace args (rest : Args -> Py unit) t :
  bind (parse_args (Namespace args)) rest t = rest args t.
Proof. reflexivity. Qed.

Lemma main_health args k :
  first_ready_at net environ args k ->
  ensure_health net (base_url_of args) (health_retries args)
    (health_timeout args) (retry_delay args) (headers_of environ args) []
  = (Normal tt, polled (health_request environ args) (retry_delay args) k).
Proof.
  intros (Hk & Hle & Hurl & Hnot & Hready & Hdelay).
  now apply ensure_health_ready.
Qed.

Lemma self_check_address args k :
  first_ready_at net environ args k ->
  request_error (self_check_url args) = None.
Proof.
  intros (_ & _ & Hurl & _). now apply request_error_base.
Qed.

Lemma main_self_check args k answer :
  first_ready_at net environ args k ->
  delivered (net k (self_check_request environ args)) = Some answer ->
  request_json net "GET" (self_check_url args) (headers_of environ args) (Finite 20)
    (polled (health_request environ args) (retry_delay args) k)
  = (Normal answer,
     polled (health_request environ args) (retry_delay args) k
       ++ [Urlopen (self_check_request environ args)]).
Proof.
  intros Hready Hgot. pose proof Hready as (Hk & _).
  apply request_json_delivered; [now apply self_check_address with (k := k)|].
  now rewrite requests_in_polled.
Qed.

Lemma main_self_check_raise args k e :
  first_ready_at net environ args k ->
  transport_failure (net k (self_check_request environ args)) e ->
  request_json net "GET" (self_check_url args) (headers_of environ args) (Finite 20)
    (polled (health_request environ args) (retry_delay args) k)
  = (Raise e,
     polled (health_request environ args) (retry_delay args) k
       ++ [Urlopen (self_check_request environ args)]).
Proof.
  intros Hready Hfail. pose proof Hready as (Hk & _).
  apply request_json_raises; [now apply self_check_address with (k := k)|].
  now rewrite requests_in_polled.
Qed.

Ltac run_to_self_check Hready Hgot :=
  unfold main; rewrite main_namespace; cbv zeta;
  rewrite (bind_normal _ _ _ _ _ (main_health _ _ Hready));
  rewrite (bind_normal _ _ _ _ _ (main_self_check _ _ _ Hready Hgot));
  cbv beta iota.

Ltac run_to_verdict Hready Hgot Hparsed :=
  run_to_self_check Hready Hgot;
  rewrite (bind_normal _ _ _ _ _ (parse_json_or_none_returns _ _ _ Hparsed)).

Ltac run_to_report Hready Hgot Hparsed Hdumps :=
  run_to_verdict Hready Hgot Hparsed;
  rewrite (bind_normal _ _ _ _ _ (dumps_returns _ _ _ Hdumps)).

Ltac run_prints :=
  unfold bind, when, print, stdout_write, print_err, stderr_write, sys_exit, ret.

Ltac same_trace := repeat rewrite <- app_assoc; reflexivity.

(** ** The ways [main] ends after readiness *)

Lemma is_True_get (d : dict) key :
  is_True (dict_get d key) = true <-> lookup d key = Some (PyBool true).
Proof.
  unfold dict_get.
  destruct (lookup d key) as [[|[|]| | | | |]|]; cbn; split;
    congruence.
Qed.

Lemma main_self_check_raises args k e :
  first_ready_at net environ args k ->
  attempt_raises (net k (self_check_request environ args)) e ->
  main net environ (Namespace args) []
  = (Raise e,
     polled (health_request environ args) (retry_delay args) k
       ++ [Urlopen (self_check_request environ args)]).
Proof.
  intros Hready [Hfail|(status & raw & Hgot & Hbody)].
  - unfold main. rewrite main_namespace. cbv zeta.
    rewrite (bind_normal _ _ _ _ _ (main_health _ _ Hready)).
    now rewrite (bind_raise _ _ _ _ _ (main_self_check_raise _ _ _ Hready Hfail)).
  - run_to_self_check Hready Hgot.
    now rewrite (bind_raise _ _ _ _ _ (parse_json_or_none_raises _ _ _ Hbody)).
Qed.

Lemma main_raw_refused args k status raw :
  first_ready_at net environ args k ->
  delivered (net k (self_check_request environ args)) = Some (status, raw) ->
  parsed raw = inl None ->
  stdout_encodes raw = false ->
  main net environ (Namespace args) []
  = (Raise UnicodeEncodeError,
     polled (health_request environ args) (retry_delay args) k
       ++ [Urlopen (self_check_request environ args)]).
Proof.
  intros Hready Hgot Hparse Henc. run_to_verdict Hready Hgot Hparse.
  run_prints. now rewrite Henc.
Qed.

Lemma main_not_json args k status raw :
  first_ready_at net environ args k ->
  delivered (net k (self_check_request environ args)) = Some (status, raw) ->
  parsed raw = inl None ->
  stdout_encodes raw = true ->
  main net environ (Namespace args) []
  = (SystemExit 20,
     polled (health_request environ args) (retry_delay args) k
       ++ [Urlopen (self_check_request environ args);
           Stdout raw;
           Stderr "self-check response is not valid JSON"]).
Proof.
  intros Hready Hgot Hparse Henc. run_to_verdict Hready Hgot Hparse.
  run_prints. rewrite Henc. same_trace.
Qed.

Lemma main_report_too_deep args k status raw body :
  first_ready_at net environ args k ->
  delivered (net k (self_check_request environ args)) = Some (status, raw) ->
  parsed raw = inl (Some body) ->
  json_dumps (PyDict body) = None ->
  main net environ (Namespace args) []
  = (Raise RecursionError,
     polled (health_request environ args) (retry_delay args) k
       ++ [Urlopen (self_check_request environ args)]).
Proof.
  intros Hready Hgot Hparse Hdumps. run_to_verdict Hready Hgot Hparse.
  now rewrite (bind_raise _ _ _ _ _ (dumps_raises _ _ Hdumps)).
Qed.

Lemma main_report_refused args k status raw body report :
  first_ready_at net environ args k ->
  delivered (net k (self_check_request environ args)) = Some (status, raw) ->
  parsed raw = inl (Some body) ->
  json_dumps (PyDict body) = Some report ->
  stdout_encodes report = false ->
  main net environ (Namespace args) []
  = (Raise UnicodeEncodeError,
     polled (health_request environ args) (retry_delay args) k
       ++ [Urlopen (self_check_request environ args)]).
Proof.
  intros Hready Hgot Hparse Hdumps Henc. run_to_report Hready Hgot Hparse Hdumps.
  run_prints. now rewrite Henc.
Qed.

Lemma main_http_error args k status raw body report :
  first_ready_at net environ args k ->
  delivered (net k (self_check_request environ args)) = Some (status, raw) ->
  parsed raw = inl (Some body) ->
  json_dumps (PyDict body) = Some report ->
  stdout_encodes report = true ->
  400 <= status ->
  main net environ (Namespace args) []
  = (SystemExit 20,
     polled (health_request environ args) (retry_delay args) k
       ++ [Urlopen (self_check_request environ args);
           Stdout report;
           Stderr ("self-check endpoint returned HTTP " ++ format_int status)%string]).
Proof.
  intros Hready Hgot Hparse Hdumps Henc Hstatus.
  run_to_report Hready Hgot Hparse Hdumps.
  apply Z.leb_le in Hstatus.
  run_prints. rewrite Henc, Hstatus. same_trace.
Qed.

Lemma main_passed args k status raw body report :
  first_ready_at net environ args k ->
  delivered (net k (self_check_request environ args)) = Some (status, raw) ->
  parsed raw = inl (Some body) ->
  json_dumps (PyDict body) = Some report ->
  stdout_encodes report = true ->
  status < 400 ->
  lookup body "ok" = Some (PyBool true) ->
  main net environ (Namespace args) []
  = (SystemExit 0,
     polled (health_request environ args) (retry_delay args) k
       ++ [Urlopen (self_check_request environ args); Stdout report]).
Proof.
  intros Hready Hgot Hparse Hdumps Henc Hstatus Hok.
  run_to_report Hready Hgot Hparse Hdumps.
  apply Z.leb_gt in Hstatus. apply is_True_get in Hok.
  run_prints. rewrite Henc, Hstatus, Hok. same_trace.
Qed.

Lemma main_checks_failed args k status raw body report :
  first_ready_at net environ args k ->
  delivered (net k (self_check_request environ args)) = Some (status, raw) ->
  parsed raw = inl (Some body) ->
  json_dumps (PyDict body) = Some report ->
  stdout_encodes report = true ->
  status < 400 ->
  lookup body "ok" <> Some (PyBool true) ->
  main net environ (Namespace args) []
  = (SystemExit 1,
     polled (health_request environ args) (retry_delay args) k
       ++ Urlopen (self_check_request environ args)
       :: Stdout report
       :: map Stderr (reported body)).
Proof.
  intros Hready Hgot Hparse Hdumps Henc Hstatus Hok.
  run_to_report Hready Hgot Hparse Hdumps.
  apply Z.leb_gt in Hstatus.
  assert (Hok' : is_True (dict_get body "ok") = false).
  { destruct (is_True (dict_get body "ok")) eqn:E; [|reflexivity].
    now apply is_True_get in E. }
  unfold bind at 1, print at 1, stdout_write at 1. rewrite Henc.
  unfold bind at 1. rewrite Hstatus.
  cbn [when ret]. unfold bind at 1. rewrite Hok'. cbn [when ret].
  unfold reported, dict_get.
  destruct (lookup body "checks") as [[| | | | |items|]|];
    try (run_prints; same_trace).
  unfold bind. rewrite for_each_failed. unfold sys_exit.
  now rewrite <- !app_assoc.
Qed.

(** ** Statelessness *)

Lemma same_answers_shift net1 net2 n1 n2 m :
  same_answers net1 net2 n1 n2 ->
  same_answers net1 net2 (n1 + m) (n2 + m).
Proof. intros Hs i request. rewrite <- !Nat.add_assoc. apply Hs. Qed.

Lemma only_appends_ret {A} (a : A) : only_appends (ret a).
Proof. exists (Normal a), []. intros t. unfold ret. now rewrite app_nil_r. Qed.

Lemma only_appends_raise {A} e : only_appends (@raise A e).
Proof. exists (Raise e), []. intros t. unfold raise. now rewrite app_nil_r. Qed.

Lemma only_appends_exit {A} code : only_appends (@sys_exit A code).
Proof.
  exists (SystemExit code), []. intros t. unfold sys_exit. now rewrite app_nil_r.
Qed.

Lemma only_appends_stdout_write text : only_appends (stdout_write text).
Proof.
  unfold only_appends, stdout_write. destruct (stdout_encodes text).
  - now exists (Normal tt), [Stdout text].
  - exists (Raise UnicodeEncodeError), []. intros t. now rewrite app_nil_r.
Qed.

Lemma only_appends_print line : only_appends (print line).
Proof. apply only_appends_stdout_write. Qed.

Lemma only_appends_stderr_write text : only_appends (stderr_write text).
Proof. now exists (Normal tt), [Stderr text]. Qed.

Lemma only_appends_print_err line : only_appends (print_err line).
Proof. apply only_appends_stderr_write. Qed.

Lemma only_appends_sleep seconds : only_appends (time_sleep seconds).
Proof.
  unfold only_appends, time_sleep. destruct (sleep_refusal seconds) as [failure|].
  - exists (Raise (sleep_exn failure)), []. intros t. now rewrite app_nil_r.
  - now exists (Normal tt), [Sleep seconds].
Qed.

Lemma only_appends_parse raw : only_appends (parse_json_or_none raw).
Proof.
  destruct (parsed raw) as [body|e] eqn:Hp.
  - exists (Normal body), []. intros t.
    now rewrite (parse_json_or_none_returns _ _ _ Hp), app_nil_r.
  - exists (Raise e), []. intros t.
    now rewrite (parse_json_or_none_raises _ _ _ Hp), app_nil_r.
Qed.

Lemma only_appends_dumps obj : only_appends (dumps obj).
Proof.
  unfold only_appends, dumps. destruct (json_dumps obj) as [report|].
  - exists (Normal report), []. intros t. now rewrite app_nil_r.
  - exists (Raise RecursionError), []. intros t. now rewrite app_nil_r.
Qed.

Lemma only_appends_bind {A B} (m : Py A) (f : A -> Py B) :
  only_appends m -> (forall a, only_appends (f a)) -> only_appends (bind m f).
Proof.
  intros (r & out & Hm) Hf. unfold bind. destruct r as [a|code|e].
  - destruct (Hf a) as (r' & out' & Hfa). exists r', (out ++ out').
    intros t. now rewrite Hm, Hfa, app_assoc.
  - exists (SystemExit code), out. intros t. now rewrite Hm.
  - exists (Raise e), out. intros t. now rewrite Hm.
Qed.

Lemma only_appends_when cond body :
  only_appends body -> only_appends (when cond body).
Proof. destruct cond; [trivial|]. intros _. apply only_appends_ret. Qed.

Lemma only_appends_for_each {A} (xs : list A) body :
  (forall x, only_appends (body x)) -> only_appends (for_each xs body).
Proof.
  intros Hbody. induction xs as [|x xs IH]; cbn [for_each].
  - apply only_appends_ret.
  - apply only_appends_bind; auto.
Qed.

Lemma only_appends_parse_args command : only_appends (parse_args command).
Proof.
  destruct command as [args|help|usage message]; cbn [parse_args].
  - apply only_appends_ret.
  - apply only_appends_bind; [apply only_appends_stdout_write|].
    intros _. apply only_appends_exit.
  - apply only_appends_bind; [apply only_appends_stderr_write|]. intros _.
    apply only_appends_bind; [apply only_appends_stderr_write|].
    intros _. apply only_appends_exit.
Qed.

Lemma stateless_pure {A} (m : Py A) :
  only_appends m -> stateless (fun _ => m).
Proof.
  intros (r & out & Hm) net1 net2 t1 t2 _. exists r, out. now rewrite !Hm.
Qed.

Lemma stateless_bind {A B} (m : Service -> Py A) (f : A -> Service -> Py B) :
  stateless m -> (forall a, stateless (f a)) ->
  stateless (fun service => bind (m service) (fun a => f a service)).
Proof.
  intros Hm Hf net1 net2 t1 t2 Hs.
  destruct (Hm _ _ _ _ Hs) as (r & out & E1 & E2).
  unfold bind. rewrite E1, E2. destruct r as [a|code|e].
  - destruct (Hf a net1 net2 (t1 ++ out) (t2 ++ out)) as (r' & out' & E1' & E2').
    { rewrite !requests_in_app. now apply same_answers_shift. }
    exists r', (out ++ out'). now rewrite !app_assoc.
  - now exists (SystemExit code), out.
  - now exists (Raise e), out.
Qed.

Lemma stateless_request_json method url headers timeout :
  stateless (fun service => request_json service method url headers timeout).
Proof.
  intros net1 net2 t1 t2 Hs.
  specialize (Hs 0%nat (mkRequest method url headers timeout)).
  rewrite !Nat.add_0_r in Hs.
  unfold request_json, new_request, bind, ret, raise, try_except, urlopen.
  destruct (request_error url) as [msg|].
  { exists (Raise (ValueError msg)), []. now rewrite !app_nil_r. }
  rewrite Hs.
  destruct (net2 _ _) as [response|e].
  - now exists (Normal response), [Urlopen (mkRequest method url headers timeout)].
  - destruct e;
      try (now eexists (Raise _), [Urlopen (mkRequest method url headers timeout)]).
    now exists (Normal (code, body)), [Urlopen (mkRequest method url headers timeout)].
Qed.

Lemma stateless_health_attempts url retries timeout delay headers attempts :
  stateless (fun service =>
               health_attempts service url retries timeout delay headers attempts).
Proof.
  induction attempts as [|attempt rest IH]; cbn [health_attempts].
  - apply stateless_pure, only_appends_ret.
  - apply (stateless_bind
             (fun service => request_json service "GET" url headers timeout)
             (fun x service =>
                let (status, raw) := x in
                body <- parse_json_or_none raw ;;
                if (status =? 200) && body_ok body then ret true
                else
                  when (attempt <? retries) (time_sleep delay) ;;
                  health_attempts service url retries timeout delay headers rest)).
    + apply stateless_request_json.
    + intros [status raw].
      apply (stateless_bind
               (fun _ => parse_json_or_none raw)
               (fun body service =>
                  if (status =? 200) && body_ok body then ret true
                  else
                    when (attempt <? retries) (time_sleep delay) ;;
                    health_attempts service url retries timeout delay headers rest)).
      * apply stateless_pure, only_appends_parse.
      * intros body. destruct ((status =? 200) && body_ok body).
        -- apply stateless_pure, only_appends_ret.
        -- apply (stateless_bind
                    (fun _ => when (attempt <? retries) (time_sleep delay))
                    (fun _ service =>
                       health_attempts service url retries timeout delay headers rest)).
           ++ apply stateless_pure, only_appends_when, only_appends_sleep.
           ++ intros _. exact IH.
Qed.

Lemma stateless_ensure_health base_url retries timeout delay headers :
  stateless (fun service =>
               ensure_health service base_url retries timeout delay headers).
Proof.
  unfold ensure_health. cbv zeta.
  apply (stateless_bind
           (fun service =>
              health_attempts service (base_url ++ "/housekeeper/health")%string
                retries timeout delay headers (range 1 (retries + 1)))
           (fun (returned : bool) _ =>
              if returned then ret tt
              else
                print_err "health check failed: runtime not ready" ;;
                sys_exit 10)).
  - apply stateless_health_attempts.
  - intros [|]; apply stateless_pure.
    + apply only_appends_ret.
    + apply only_appends_bind; [apply only_appends_print_err|].
      intros _. apply only_appends_exit.
Qed.

Lemma stateless_main command :
  stateless (fun service => main service environ command).
Proof.
  unfold main.
  apply (stateless_bind (fun _ => parse_args command)
           (fun args service => bind (ensure_health service _ _ _ _ _) _)).
  - apply stateless_pure, only_appends_parse_args.
  - intros args. cbv zeta.
    apply (stateless_bind (fun service => ensure_health service _ _ _ _ _)
                          (fun _ service => bind (request_json service _ _ _ _) _)).
    + apply stateless_ensure_health.
    + intros _.
      apply (stateless_bind (fun service => request_json service _ _ _ _)
                            (fun x _ => _)).
      * apply stateless_request_json.
      * intros [status raw]. apply stateless_pure.
        apply only_appends_bind; [apply only_appends_parse|].
        intros [body|];
          repeat first
            [ apply only_appends_bind; [|intros ?]
            | apply only_appends_dumps
            | apply only_appends_print | apply only_appends_print_err
            | apply only_appends_exit | apply only_appends_when
            | apply only_appends_ret ].
        destruct (dict_get body "checks");
          try apply only_appends_ret.
        apply only_appends_for_each. intros [| | | | | |d];
          first [apply only_appends_print_err | apply only_appends_ret].
Qed.

(** ** Counting in traces *)

Lemma requests_to_app url (t1 t2 : trace) :
  requests_to url (t1 ++ t2) = (requests_to url t1 + requests_to url t2)%nat.
Proof. unfold requests_to. now rewrite filter_app, length_app. Qed.

Lemma requests_to_retried url request delay j :
  requests_to url (retried request delay j)
  = if String.eqb (req_url request) url then j else 0%nat.
Proof.
  unfold requests_to. destruct (String.eqb (req_url request) url) eqn:E;
    induction j as [|j IH]; cbn [retried filter]; try reflexivity;
    rewrite E; cbn [length]; now rewrite IH.
Qed.

Lemma requests_to_polled url request delay k :
  (1 <= k)%nat ->
  requests_to url (polled request delay k)
  = if String.eqb (req_url request) url then k else 0%nat.
Proof.
  intros Hk. unfold polled. rewrite requests_to_app, requests_to_retried.
  unfold requests_to. cbn [filter]. destruct (String.eqb _ _); cbn; lia.
Qed.

Lemma requests_to_prints url out :
  forallb is_print out = true -> requests_to url out = 0%nat.
Proof.
  unfold requests_to. induction out as [|e out IH]; [reflexivity|].
  cbn [forallb filter]. intros [He Hout]%andb_true_iff.
  destruct e; try discriminate; auto.
Qed.

Lemma sleeps_of_app (t1 t2 : trace) :
  sleeps_of (t1 ++ t2) = sleeps_of t1 ++ sleeps_of t2.
Proof. apply flat_map_app. Qed.

Lemma sleeps_of_polled request delay k :
  sleeps_of (polled request delay k) = repeat delay (Nat.pred k).
Proof.
  unfold polled, sleeps_of. rewrite flat_map_app. cbn [flat_map app].
  rewrite app_nil_r. induction (Nat.pred k) as [|j IH]; [reflexivity|].
  cbn [retried flat_map repeat app]. now rewrite IH.
Qed.

Lemma sleeps_of_prints out :
  forallb is_print out = true -> sleeps_of out = [].
Proof.
  unfold sleeps_of. induction out as [|e out IH]; [reflexivity|].
  cbn [forallb flat_map]. intros [He Hout]%andb_true_iff.
  destruct e; try discriminate; cbn; auto.
Qed.

Lemma stderr_of_polled request delay k :
  stderr_of (polled request delay k) = [].
Proof.
  unfold polled, stderr_of. rewrite flat_map_app. cbn [flat_map app].
  rewrite app_nil_r. induction (Nat.pred k) as [|j IH]; [reflexivity|].
  cbn [retried flat_map app]. exact IH.
Qed.

Lemma stdout_of_polled request delay k :
  stdout_of (polled request delay k) = [].
Proof.
  unfold polled, stdout_of. rewrite flat_map_app. cbn [flat_map app].
  rewrite app_nil_r. induction (Nat.pred k) as [|j IH]; [reflexivity|].
  cbn [retried flat_map app]. exact IH.
Qed.

Lemma forallb_is_print_stderr lines :
  forallb is_print (map Stderr lines) = true.
Proof. induction lines as [|l lines IH]; [reflexivity|exact IH]. Qed.

(** ** The two endpoints are different addresses *)

Lemma append_cancel (s a b : string) : (s ++ a = s ++ b)%string -> a = b.
Proof.
  induction s as [|c s IH]; cbn; [trivial|]. intros [= E]. now apply IH.
Qed.

Lemma health_is_not_self_check args :
  String.eqb (health_url args) (self_check_url args) = false.
Proof.
  apply String.eqb_neq. unfold health_url, self_check_url.
  intros E%append_cancel. discriminate.
Qed.

Lemma stdout_of_app (t1 t2 : trace) :
  stdout_of (t1 ++ t2) = stdout_of t1 ++ stdout_of t2.
Proof. apply flat_map_app. Qed.

Lemma stderr_of_app (t1 t2 : trace) :
  stderr_of (t1 ++ t2) = stderr_of t1 ++ stderr_of t2.
Proof. apply flat_map_app. Qed.

Lemma stderr_of_map_stderr lines : stderr_of (map Stderr lines) = lines.
Proof.
  induction lines as [|l lines IH]; [reflexivity|].
  cbn [map]. change (stderr_of (Stderr l :: map Stderr lines))
    with (l :: stderr_of (map Stderr lines)). now rewrite IH.
Qed.

Lemma stdout_of_map_stderr lines : stdout_of (map Stderr lines) = [].
Proof. induction lines as [|l lines IH]; [reflexivity|exact IH]. Qed.

Lemma requests_to_self_check_request args :
  requests_to (self_check_url args) [Urlopen (self_check_request environ args)] = 1%nat
  /\ requests_to (health_url args) [Urlopen (self_check_request environ args)] = 0%nat.
Proof.
  unfold requests_to. cbn [filter self_check_request req_url].
  rewrite String.eqb_refl, String.eqb_sym, health_is_not_self_check. now split.
Qed.

Lemma in_polled request delay k req :
  In (Urlopen req) (polled request delay k) -> req = request.
Proof.
  unfold polled. intros [Hin|[[= <-]|[]]]%in_app_or; [|reflexivity].
  induction (Nat.pred k) as [|j IH]; [now elim Hin|].
  destruct Hin as [[= <-]|[[=]|Hin]]; [reflexivity|now apply IH].
Qed.

Lemma not_in_prints req out :
  forallb is_print out = true -> ~ In (Urlopen req) out.
Proof.
  intros Hout Hin. rewrite forallb_forall in Hout.
  now specialize (Hout _ Hin).
Qed.

Lemma calls_of_app (t1 t2 : trace) : calls_of (t1 ++ t2) = calls_of t1 ++ calls_of t2.
Proof. apply filter_app. Qed.

Lemma calls_of_polled request delay k :
  calls_of (polled request delay k) = polled request delay k.
Proof.
  unfold polled. rewrite calls_of_app. f_equal.
  induction (Nat.pred k) as [|j IH]; [reflexivity|].
  cbn [retried]. unfold calls_of in *. cbn. now rewrite IH.
Qed.

Lemma calls_of_prints out : forallb is_print out = true -> calls_of out = [].
Proof.
  unfold calls_of. induction out as [|e out IH]; [reflexivity|].
  cbn [forallb filter]. intros [He Hout]%andb_true_iff.
  rewrite He. cbn. now apply IH.
Qed.

(** ** Every way a run can end *)

Lemma delivered_or_failed (answer : (Z * string) + exn) :
  (exists response, delivered answer = Some response) \/
  (exists e, transport_failure answer e).
Proof.
  destruct answer as [response|e]; [left; now exists response|].
  destruct e; try (right; eexists; split; [reflexivity|discriminate]).
  left. now eexists.
Qed.

Lemma answer_cases (answer : (Z * string) + exn) :
  answered_ready answer \/ answered_not_ready answer \/
  exists e, attempt_raises answer e.
Proof.
  destruct (delivered_or_failed answer) as [[[status raw] Hgot]|[e Hfail]];
    [|right; right; exists e; now left].
  destruct (parsed raw) as [body|e] eqn:Hbody;
    [|right; right; exists e; right; now exists status, raw].
  destruct ((status =? 200) && body_ok body) eqn:Htest.
  - left. exists status, raw. split; [exact Hgot|].
    now apply (ready_test _ _ _ Hbody).
  - right; left. exists status, raw. split; [exact Hgot|].
    split; [now exists body|].
    intros Hready%(ready_test _ _ _ Hbody). congruence.
Qed.

(** Among the first [n] answers to [request], either all are not ready, or
    there is a first one that is ready or after which the script stops. *)
Lemma first_decisive_answer (request : Request) n :
  (forall i, (i < n)%nat -> answered_not_ready (net i request)) \/
  exists j, (j < n)%nat /\
    (forall i, (i < j)%nat -> answered_not_ready (net i request)) /\
    (answered_ready (net j request) \/
     exists e, attempt_raises (net j request) e).
Proof.
  induction n as [|n [Hall|(j & Hj & Hbefore & Hat)]].
  - left. intros i Hi. lia.
  - destruct (answer_cases (net n request)) as [Hready|[Hnot|Hfail]].
    + right. exists n. repeat split; [lia|exact Hall|now left].
    + left. intros i Hi. destruct (Nat.eq_dec i n) as [->|Hne]; [exact Hnot|].
      apply Hall. lia.
    + right. exists n. repeat split; [lia|exact Hall|now right].
  - right. exists j. repeat split; [lia|exact Hbefore|exact Hat].
Qed.

Lemma main_ends_after_ready args k :
  first_ready_at net environ args k ->
  exists r t,
    main net environ (Namespace args) [] = (r, t) /\ main_ends net environ args r t.
Proof.
  intros Hready.
  destruct (delivered_or_failed (net k (self_check_request environ args)))
    as [[[status raw] Hgot]|[e Hfail]].
  - destruct (parsed raw) as [[body|]|e] eqn:Hparse.
    + pose proof (proj1 (parsed_object _ _) Hparse) as Hloads.
      destruct (json_dumps (PyDict body)) as [report|] eqn:Hdumps.
      * destruct (stdout_encodes report) eqn:Henc.
        -- destruct (Z.le_gt_cases 400 status) as [Herr|Hfine].
           ++ eexists _, _. split;
                [apply main_http_error with (raw := raw) (body := body);
                 eassumption|].
              now apply ends_http_error with (raw := raw) (body := body).
           ++ destruct (is_True (dict_get body "ok")) eqn:Hok.
              ** apply is_True_get in Hok. eexists _, _. split;
                   [apply main_passed
                      with (status := status) (raw := raw) (body := body);
                    eassumption|].
                 now apply ends_passed
                   with (status := status) (raw := raw) (body := body).
              ** assert (Hnot : lookup body "ok" <> Some (PyBool true))
                   by (intros E%is_True_get; congruence).
                 eexists _, _. split;
                   [apply main_checks_failed
                      with (status := status) (raw := raw);
                    eassumption|].
                 now apply ends_checks_failed
                   with (status := status) (raw := raw).
        -- eexists _, _. split;
             [apply main_report_refused
                with (status := status) (raw := raw) (body := body)
                     (report := report);
              eassumption|].
           now apply ends_report_refused
             with (status := status) (raw := raw) (body := body)
                  (report := report).
      * eexists _, _. split;
          [apply main_report_too_deep
             with (status := status) (raw := raw) (body := body);
           eassumption|].
        now apply ends_report_too_deep
          with (status := status) (raw := raw) (body := body).
    + destruct (stdout_encodes raw) eqn:Henc.
      * eexists _, _. split;
          [apply main_not_json with (status := status); eassumption|].
        now apply ends_not_json with (status := status).
      * eexists _, _. split;
          [apply main_raw_refused with (status := status) (raw := raw); eassumption|].
        now apply ends_raw_refused with (status := status) (raw := raw).
    + assert (Hraise : attempt_raises (net k (self_check_request environ args)) e)
        by (right; now exists status, raw).
      eexists _, _. split; [apply main_self_check_raises; eassumption|].
      now apply ends_self_check_raise.
  - assert (Hraise : attempt_raises (net k (self_check_request environ args)) e)
      by now left.
    eexists _, _. split; [apply main_self_check_raises; eassumption|].
    now apply ends_self_check_raise.
Qed.

Ltac enter_health :=
  unfold main; rewrite main_namespace; cbv zeta.

(** Once [parse_args] has returned, [main] always ends in one of the ways
    listed by [main_ends]. *)
Lemma main_ends_complete args :
  exists r t,
    main net environ (Namespace args) [] = (r, t) /\ main_ends net environ args r t.
Proof.
  destruct (Z.le_gt_cases (health_retries args) 0) as [Hnone|Hsome].
  { eexists _, _. split; [|now apply ends_no_attempt].
    enter_health. apply bind_exit. now apply ensure_health_no_attempt. }
  destruct (request_error (health_url args)) as [msg|] eqn:Hurl.
  { eexists _, _. split; [|apply ends_bad_address with (msg := msg); [lia|exact Hurl]].
    enter_health. apply bind_raise.
    apply ensure_health_bad_address; [lia|exact Hurl]. }
  assert (Hsleep_raise :
            forall failure,
              1 < health_retries args ->
              answered_not_ready (net 0%nat (health_request environ args)) ->
              sleep_refusal (retry_delay args) = Some failure ->
              exists r t, main net environ (Namespace args) [] = (r, t)
                          /\ main_ends net environ args r t).
  { intros failure Hr Hnot Hneg. eexists _, _.
    split; [|apply ends_sleep_raise with (failure := failure); assumption].
    enter_health. apply bind_raise.
    now apply ensure_health_sleep_raise. }
  destruct (first_decisive_answer (health_request environ args)
              (Z.to_nat (health_retries args)))
    as [Hall|(j & Hj & Hbefore & Hat)].
  - destruct (sleep_refusal (retry_delay args)) as [failure|] eqn:Hsleep.
    + destruct (Z.eq_dec (health_retries args) 1) as [Hone|Hmore].
      * eexists _, _. split;
          [|apply ends_never_ready; [lia|exact Hurl|exact Hall|lia]].
        enter_health. apply bind_exit.
        apply ensure_health_exhausted; [exact Hurl|lia|exact Hall|lia].
      * apply Hsleep_raise with (failure := failure); [lia| |reflexivity].
        apply Hall. lia.
    + eexists _, _. split;
        [|apply ends_never_ready; [lia|exact Hurl|exact Hall|now intros _]].
      enter_health. apply bind_exit.
      apply ensure_health_exhausted; [exact Hurl|lia|exact Hall|now intros _].
  - assert (Hcases :
              (1 < S j)%nat ->
              forall failure, sleep_refusal (retry_delay args) = Some failure ->
              exists r t, main net environ (Namespace args) [] = (r, t)
                          /\ main_ends net environ args r t).
    { intros Hlater failure Hneg.
      apply Hsleep_raise with (failure := failure); [lia| |exact Hneg].
      apply Hbefore. lia. }
    assert (Hgo :
              ((1 < S j)%nat -> sleep_refusal (retry_delay args) = None) ->
              exists r t, main net environ (Namespace args) [] = (r, t)
                          /\ main_ends net environ args r t).
    { intros Hdelay. destruct Hat as [Hready|[e Hfail]].
      - apply main_ends_after_ready with (k := S j).
        unfold first_ready_at. split; [lia|]. split; [lia|]. split; [exact Hurl|].
        split; [exact Hbefore|]. split; [exact Hready|exact Hdelay].
      - eexists _, _. split;
          [|apply ends_health_raise with (j := S j) (e := e);
            [lia|lia|exact Hurl|exact Hbefore|exact Hdelay|exact Hfail]].
        enter_health. apply bind_raise.
        apply ensure_health_raise with (j := S j);
          [exact Hurl|lia|lia|exact Hbefore|exact Hdelay|exact Hfail]. }
    destruct (Nat.eq_dec j 0) as [->|Hj0]; [apply Hgo; lia|].
    destruct (sleep_refusal (retry_delay args)) as [failure|] eqn:Hsleep.
    + apply Hcases with (failure := failure); [lia|reflexivity].
    + apply Hgo. now intros _.
Qed.

Lemma run_script_of_main command t0 r t :
  main net environ command t0 = (r, t) ->
  run_script net environ command t0
  = (match r with
     | Normal _ => Exited 0
     | SystemExit code => Exited code
     | Raise e => Traceback e
     end, t).
Proof. unfold run_script. intros ->. now destruct r. Qed.


Lemma run_script_ends args :
  exists r t,
    main_ends net environ args r t /\
    main net environ (Namespace args) [] = (r, t) /\
    run_script net environ (Namespace args) []
    = (match r with
       | Normal _ => Exited 0
       | SystemExit code => Exited code
       | Raise e => Traceback e
       end, t).
Proof.
  destruct (main_ends_complete args) as (r & t & Hmain & Hends).
  exists r, t. repeat split; [exact Hends|exact Hmain|].
  now apply run_script_of_main.
Qed.

Lemma main_help help t :
  main net environ (HelpRequested help) t
  = if stdout_encodes help then (SystemExit 0, t ++ [Stdout help])
    else (Raise UnicodeEncodeError, t).
Proof.
  unfold main. cbn [parse_args]. unfold bind, stdout_write, sys_exit.
  now destruct (stdout_encodes help).
Qed.

Lemma main_usage usage message t :
  main net environ (UsageError usage message) t
  = (SystemExit 2, t ++ [Stderr usage; Stderr message]).
Proof.
  unfold main. cbn [parse_args]. unfold bind, stderr_write, sys_exit.
  now rewrite <- app_assoc.
Qed.

(** The events of any run with a namespace: a block of health requests with
    the sleeps between them, then at most one self-check request, then
    printed lines. *)
Lemma main_ends_shape args r t :
  main_ends net environ args r t ->
  exists j hp sc out,
    t = hp ++ sc ++ out /\
    ((j = 0%nat /\ hp = []) \/
     ((1 <= j)%nat /\
      hp = polled (health_request environ args) (retry_delay args) j)) /\
    Z.of_nat j <= Z.max 0 (health_retries args) /\
    (sc = [] \/
     (sc = [Urlopen (self_check_request environ args)] /\
      first_ready_at net environ args j)) /\
    forallb is_print out = true.
Proof.
  intros Hends.
  destruct Hends as
    [Hr | msg Hr Hurl | Hr Hurl Hall Hdelay
     | j e Hj Hle Hurl Hbefore Hdelay Hfail | failure Hr Hurl Hnot Hneg
     | k e Hready Hfail | k status raw Hready Hgot Hbad Henc
     | k status raw Hready Hgot Hbad Henc
     | k status raw body Hready Hgot Hloads Hdumps
     | k status raw body report Hready Hgot Hloads Hdumps Henc
     | k status raw body report Hready Hgot Hloads Hdumps Henc Hstatus
     | k status raw body report Hready Hgot Hloads Hdumps Henc Hstatus Hok
     | k status raw body report Hready Hgot Hloads Hdumps Henc Hstatus Hok ];
    try (pose proof Hready as (Hk & Hkle & _)).
  - exists 0%nat, [], [], [Stderr "health check failed: runtime not ready"].
    repeat split; auto. lia.
  - exists 0%nat, [], [], []. repeat split; auto. lia.
  - exists (Z.to_nat (health_retries args)),
      (polled (health_request environ args) (retry_delay args) (Z.to_nat (health_retries args))), [],
      [Stderr "health check failed: runtime not ready"].
    split; [reflexivity|]. split; [right; split; [lia|reflexivity]|].
    split; [lia|]. split; [now left|reflexivity].
  - exists j, (polled (health_request environ args) (retry_delay args) j), [], [].
    split; [now rewrite !app_nil_r|].
    split; [right; split; [exact Hj|reflexivity]|].
    split; [lia|]. split; [now left|reflexivity].
  - exists 1%nat, (polled (health_request environ args) (retry_delay args) 1), [], [].
    split; [reflexivity|].
    split; [right; split; [lia|reflexivity]|].
    split; [lia|]. split; [now left|reflexivity].
  - exists k, (polled (health_request environ args) (retry_delay args) k),
      [Urlopen (self_check_request environ args)], []. split; [reflexivity|].
    split; [right; split; [exact Hk|reflexivity]|].
    split; [lia|]. split; [now right|reflexivity].
  - exists k, (polled (health_request environ args) (retry_delay args) k),
      [Urlopen (self_check_request environ args)], []. split; [reflexivity|].
    split; [right; split; [exact Hk|reflexivity]|].
    split; [lia|]. split; [now right|reflexivity].
  - eexists k, (polled (health_request environ args) (retry_delay args) k),
      [Urlopen (self_check_request environ args)], _.
    split; [reflexivity|]. split; [right; split; [exact Hk|reflexivity]|].
    split; [lia|]. split; [now right|reflexivity].
  - exists k, (polled (health_request environ args) (retry_delay args) k),
      [Urlopen (self_check_request environ args)], []. split; [reflexivity|].
    split; [right; split; [exact Hk|reflexivity]|].
    split; [lia|]. split; [now right|reflexivity].
  - exists k, (polled (health_request environ args) (retry_delay args) k),
      [Urlopen (self_check_request environ args)], []. split; [reflexivity|].
    split; [right; split; [exact Hk|reflexivity]|].
    split; [lia|]. split; [now right|reflexivity].
  - eexists k, (polled (health_request environ args) (retry_delay args) k),
      [Urlopen (self_check_request environ args)], _.
    split; [reflexivity|]. split; [right; split; [exact Hk|reflexivity]|].
    split; [lia|]. split; [now right|reflexivity].
  - eexists k, (polled (health_request environ args) (retry_delay args) k),
      [Urlopen (self_check_request environ args)], _.
    split; [reflexivity|]. split; [right; split; [exact Hk|reflexivity]|].
    split; [lia|]. split; [now right|reflexivity].
  - exists k, (polled (health_request environ args) (retry_delay args) k),
      [Urlopen (self_check_request environ args)],
      (Stdout report :: map Stderr (reported body)).
    split; [reflexivity|]. split; [right; split; [exact Hk|reflexivity]|].
    split; [lia|]. split; [now right|apply forallb_is_print_stderr].
Qed.

(** What the shape says about the counts of a run. *)
Lemma shape_counts args j hp sc out :
  ((j = 0%nat /\ hp = []) \/
   ((1 <= j)%nat /\
    hp = polled (health_request environ args) (retry_delay args) j)) ->
  (sc = [] \/ sc = [Urlopen (self_check_request environ args)]) ->
  forallb is_print out = true ->
  requests_to (health_url args) (hp ++ sc ++ out) = j /\
  requests_to (self_check_url args) (hp ++ sc ++ out) = length sc /\
  requests_in (hp ++ sc ++ out) = (j + length sc)%nat /\
  sleeps_of (hp ++ sc ++ out) = repeat (retry_delay args) (Nat.pred j) /\
  calls_of (hp ++ sc ++ out) = hp ++ sc.
Proof.
  intros Hhp Hsc Hout.
  assert (Hhealth : requests_to (health_url args) hp = j
                    /\ requests_to (self_check_url args) hp = 0%nat
                    /\ requests_in hp = j
                    /\ sleeps_of hp = repeat (retry_delay args) (Nat.pred j)
                    /\ calls_of hp = hp).
  { destruct Hhp as [[-> ->]|[Hpos ->]]; [now repeat split|].
    rewrite !requests_to_polled, requests_in_polled, sleeps_of_polled,
      calls_of_polled by exact Hpos.
    cbn [health_request req_url]. unfold health_url at 1.
    now rewrite String.eqb_refl, health_is_not_self_check. }
  destruct Hhealth as (Hh1 & Hh2 & Hh3 & Hh4 & Hh5).
  assert (Hself : requests_to (health_url args) sc = 0%nat
                  /\ requests_to (self_check_url args) sc = length sc
                  /\ requests_in sc = length sc
                  /\ sleeps_of sc = []
                  /\ calls_of sc = sc).
  { destruct Hsc as [-> | ->]; [now repeat split|].
    destruct (requests_to_self_check_request args) as [-> ->].
    now repeat split. }
  destruct Hself as (Hs1 & Hs2 & Hs3 & Hs4 & Hs5).
  assert (Hprints : requests_in out = 0%nat).
  { clear -Hout. unfold requests_in.
    induction out as [|e out IH]; [reflexivity|].
    cbn [forallb] in Hout. apply andb_true_iff in Hout as [He Hout].
    destruct e; try discriminate; cbn; auto. }
  rewrite !requests_to_app, !requests_in_app, !sleeps_of_app, !calls_of_app.
  rewrite !(requests_to_prints _ out Hout), (sleeps_of_prints out Hout),
    (calls_of_prints out Hout).
  rewrite Hh1, Hh2, Hh3, Hh4, Hh5, Hs1, Hs2, Hs3, Hs4, Hs5, Hprints,
    !app_nil_r, !Nat.add_0_r.
  now repeat split.
Qed.

(** After readiness: one self-check request, then only printing. *)
Lemma main_after_ready args k :
  first_ready_at net environ args k ->
  exists r out,
    main net environ (Namespace args) []
    = (r, polled (health_request environ args) (retry_delay args) k
            ++ Urlopen (self_check_request environ args) :: out)
    /\ forallb is_print out = true.
Proof.
  intros Hready.
  destruct (delivered_or_failed (net k (self_check_request environ args)))
    as [[[status raw] Hgot]|[e Hfail]].
  - destruct (parsed raw) as [[body|]|e] eqn:Hparse.
    + destruct (json_dumps (PyDict body)) as [report|] eqn:Hdumps.
      * destruct (stdout_encodes report) eqn:Henc.
        -- destruct (Z.le_gt_cases 400 status) as [Herr|Hfine].
           ++ eexists _, _. split;
                [apply main_http_error with (raw := raw) (body := body);
                 eassumption|reflexivity].
           ++ destruct (is_True (dict_get body "ok")) eqn:Hok.
              ** apply is_True_get in Hok. eexists _, _. split;
                   [apply main_passed
                      with (status := status) (raw := raw) (body := body);
                    eassumption|reflexivity].
              ** eexists _, _. split.
                 --- apply main_checks_failed with (status := status) (raw := raw);
                       try eassumption.
                     intros E%is_True_get. congruence.
                 --- apply forallb_is_print_stderr.
        -- eexists _, _. split;
             [apply main_report_refused
                with (status := status) (raw := raw) (body := body)
                     (report := report);
              eassumption|reflexivity].
      * eexists _, _. split;
          [apply main_report_too_deep
             with (status := status) (raw := raw) (body := body);
           eassumption|reflexivity].
    + destruct (stdout_encodes raw) eqn:Henc.
      * eexists _, _. split;
          [apply main_not_json with (status := status); eassumption|reflexivity].
      * eexists _, _. split;
          [apply main_raw_refused with (status := status) (raw := raw); eassumption
          |reflexivity].
    + eexists _, _. split;
        [apply main_self_check_raises;
         [eassumption|right; exists status, raw; split; eassumption]
        |reflexivity].
  - eexists _, _. split;
      [apply main_self_check_raises; [eassumption|left; eassumption]|reflexivity].
Qed.

(** ** The attempt that comes back ready *)

Lemma not_ready_is_not_ready (answer : (Z * string) + exn) :
  answered_not_ready answer -> ~ answered_ready answer.
Proof.
  intros (status & raw & Hgot & _ & Hnot) (status' & raw' & Hgot' & Hready).
  rewrite Hgot in Hgot'. injection Hgot' as <- <-. now elim Hnot.
Qed.

Lemma raising_is_not_ready (answer : (Z * string) + exn) e :
  attempt_raises answer e -> ~ answered_ready answer.
Proof.
  intros Hfail (status & raw & Hgot & Hready).
  destruct Hfail as [[-> Hkind]|(status' & raw' & Hgot' & Hparse)].
  - destruct e; try discriminate. now elim (Hkind code body).
  - rewrite Hgot in Hgot'. injection Hgot' as <- <-.
    destruct (readiness_parsed _ _ Hready) as (d & Hd & _). congruence.
Qed.

Lemma health_count args j sc out :
  (1 <= j)%nat ->
  (sc = [] \/ sc = [Urlopen (self_check_request environ args)]) ->
  forallb is_print out = true ->
  requests_to (health_url args)
    (polled (health_request environ args) (retry_delay args) j ++ sc ++ out) = j.
Proof.
  intros Hj Hsc Hout.
  now destruct (shape_counts args j _ sc out (or_intror (conj Hj eq_refl)) Hsc Hout).
Qed.

Ltac count_health Hcount args j sc out :=
  let Hc := fresh "Hc" in
  pose proof (health_count args j sc out) as Hc;
  cbn [app] in Hc;
  rewrite Hc in Hcount
    by (try lia; auto; try reflexivity; apply forallb_is_print_stderr);
  clear Hc.

(** A health attempt that takes place and comes back ready is the last
    health attempt of the run, and everything before it went well. *)
Lemma main_ends_ready_attempt args r t :
  main_ends net environ args r t ->
  forall k, (1 <= k)%nat ->
    (k <= requests_to (health_url args) t)%nat ->
    answered_ready (net (Nat.pred k) (health_request environ args)) ->
    first_ready_at net environ args k.
Proof.
  intros Hends k Hk Hcount Hanswer.
  assert (Hlast : forall j,
            (k <= j)%nat ->
            (forall i, (i < Nat.pred j)%nat ->
                       answered_not_ready (net i (health_request environ args))) ->
            k = j).
  { intros j Hle Hbefore.
    destruct (Nat.eq_dec k j) as [E|Hne]; [exact E|].
    elim (not_ready_is_not_ready _ (Hbefore (Nat.pred k) ltac:(lia)) Hanswer). }
  destruct Hends as
    [Hr | msg Hr Hurl | Hr Hurl Hall Hdelay
     | j e Hj Hle Hurl Hbefore Hdelay Hfail | failure Hr Hurl Hnot Hneg
     | k' e Hready Hfail | k' status raw Hready Hgot Hbad Henc
     | k' status raw Hready Hgot Hbad Henc
     | k' status raw body Hready Hgot Hloads Hdumps
     | k' status raw body report Hready Hgot Hloads Hdumps Henc
     | k' status raw body report Hready Hgot Hloads Hdumps Henc Hstatus
     | k' status raw body report Hready Hgot Hloads Hdumps Henc Hstatus Hok
     | k' status raw body report Hready Hgot Hloads Hdumps Henc Hstatus Hok ];
    try (pose proof Hready as (Hk' & _ & _ & Hbefore' & _)).
  - cbn in Hcount. lia.
  - cbn in Hcount. lia.
  - count_health Hcount args (Z.to_nat (health_retries args)) (@nil event)
      [Stderr "health check failed: runtime not ready"].
    elim (not_ready_is_not_ready _ (Hall (Nat.pred k) ltac:(lia)) Hanswer).
  - rewrite <- (app_nil_r (polled _ _ j)) in Hcount.
    count_health Hcount args j (@nil event) (@nil event).
    assert (k = j) as -> by now apply Hlast.
    elim (raising_is_not_ready _ _ Hfail Hanswer).
  - assert (k = 1%nat) as -> by (cbn in Hcount; unfold health_url in Hcount at 1;
                                   rewrite String.eqb_refl in Hcount; cbn in Hcount; lia).
    elim (not_ready_is_not_ready _ Hnot Hanswer).
  - count_health Hcount args k' [Urlopen (self_check_request environ args)]
      (@nil event).
    now rewrite (Hlast k' Hcount Hbefore').
  - count_health Hcount args k' [Urlopen (self_check_request environ args)]
      (@nil event).
    now rewrite (Hlast k' Hcount Hbefore').
  - count_health Hcount args k' [Urlopen (self_check_request environ args)]
      [Stdout raw; Stderr "self-check response is not valid JSON"].
    now rewrite (Hlast k' Hcount Hbefore').
  - count_health Hcount args k' [Urlopen (self_check_request environ args)]
      (@nil event).
    now rewrite (Hlast k' Hcount Hbefore').
  - count_health Hcount args k' [Urlopen (self_check_request environ args)]
      (@nil event).
    now rewrite (Hlast k' Hcount Hbefore').
  - count_health Hcount args k' [Urlopen (self_check_request environ args)]
      [Stdout report;
       Stderr ("self-check endpoint returned HTTP " ++ format_int status)%string].
    now rewrite (Hlast k' Hcount Hbefore').
  - count_health Hcount args k' [Urlopen (self_check_request environ args)]
      [Stdout report].
    now rewrite (Hlast k' Hcount Hbefore').
  - count_health Hcount args k' [Urlopen (self_check_request environ args)]
      (Stdout report :: map Stderr (reported body)).
    now rewrite (Hlast k' Hcount Hbefore').
Qed.

Lemma came_back_ready_first_ready args k :
  came_back_ready net environ args k <-> first_ready_at net environ args k.
Proof.
  split.
  - intros (Hk & Hcount & Hanswer).
    destruct (run_script_ends args) as (r & t & Hends & _ & Hrun).
    rewrite Hrun in Hcount. cbn [snd] in Hcount.
    now apply (main_ends_ready_attempt _ _ _ Hends).
  - intros Hready. pose proof Hready as (Hk & _ & _ & _ & Hanswer & _).
    split; [exact Hk|]. split; [|exact Hanswer].
    destruct (main_after_ready _ _ Hready) as (r & out & Hmain & Hout).
    rewrite (run_script_of_main _ _ _ _ Hmain). cbn [snd].
    change (Urlopen (self_check_request environ args) :: out)
      with ([Urlopen (self_check_request environ args)] ++ out).
    rewrite health_count by auto. lia.
Qed.

Lemma format_int_decimal status :
  option_map Z.of_int (NilZero.int_of_string (format_int status)) = Some status.
Proof.
  unfold format_int. rewrite NilZero.isi.
  - cbn. now rewrite DecimalZ.of_to.
  - destruct status; cbn; try discriminate.
    intros [= E]. now apply Unsigned.to_uint_nonnil in E.
  - destruct status; cbn; try discriminate.
    intros [= E]. now apply Unsigned.to_uint_nonnil in E.
Qed.

Lemma no_self_check_without_ready args :
  (forall i, (i < Z.to_nat (health_retries args))%nat ->
             ~ answered_ready (net i (health_request environ args))) ->
  requests_to (self_check_url args)
    (snd (run_script net environ (Namespace args) [])) = 0%nat.
Proof.
  intros Hnever.
  destruct (run_script_ends args) as (r & t & Hends & _ & Hrun).
  rewrite Hrun. cbn [snd].
  destruct (main_ends_shape _ _ _ Hends)
    as (j & hp & sc & out & -> & Hhp & Hj & Hsc & Hout).
  destruct Hsc as [->|[-> Hready]].
  - destruct (shape_counts args j hp [] out Hhp ltac:(now left) Hout)
      as (_ & -> & _). reflexivity.
  - destruct Hready as (Hk & Hle & _ & _ & Hready & _).
    elim (Hnever (Nat.pred j)); [lia|exact Hready].
Qed.

(** * The claims *)

(** C1 (as amended).  When the retry count R is at least 1 and no health
    attempt satisfies the readiness condition, the self-check endpoint is
    never requested.  When moreover the address is one [urllib] accepts,
    each of the R attempts comes back with an HTTP response whose body
    [json.loads] decodes or rejects as not JSON, and [time.sleep] accepts
    the delay (needed when R > 1), the run is R health requests separated
    by the delay, then the line [health check failed: runtime not ready] on
    standard error, then exit code 10. *)
Theorem never_ready_exits_10 args :
  1 <= health_retries args ->
  (forall i, (i < Z.to_nat (health_retries args))%nat ->
             ~ answered_ready (net i (health_request environ args))) ->
  requests_to (self_check_url args)
    (snd (run_script net environ (Namespace args) [])) = 0%nat /\
  (request_error (health_url args) = None ->
   (forall i, (i < Z.to_nat (health_retries args))%nat ->
              answered_not_ready (net i (health_request environ args))) ->
   (1 < health_retries args -> sleep_refusal (retry_delay args) = None) ->
   exists t,
     run_script net environ (Namespace args) [] = (Exited 10, t) /\
     t = polled (health_request environ args) (retry_delay args)
           (Z.to_nat (health_retries args))
         ++ [Stderr "health check failed: runtime not ready"] /\
     stderr_of t = ["health check failed: runtime not ready"%string]).
Proof.
  intros Hr Hnever. split; [now apply no_self_check_without_ready|].
  intros Hurl Hnet Hdelay. eexists. split; [|split; [reflexivity|]].
  - apply (run_script_of_main _ _ (SystemExit 10)).
    enter_health. apply bind_exit.
    now apply ensure_health_exhausted.
  - now rewrite stderr_of_app, stderr_of_polled.
Qed.

(** C2 (as amended).  When the self-check request ends in a transport
    failure or a timeout, the exception is not caught: the script prints
    nothing on either stream and the process ends in the interpreter's
    traceback for that exception, with exit status 1, which differs from
    the readiness-failure code 10 (and from 20). *)
Theorem self_check_transport_failure_is_uncaught args k e :
  first_ready_at net environ args k ->
  transport_failure (net k (self_check_request environ args)) e ->
  exists t,
    run_script net environ (Namespace args) [] = (Traceback e, t) /\
    t = polled (health_request environ args) (retry_delay args) k
        ++ [Urlopen (self_check_request environ args)] /\
    exit_status (Traceback e) = 1 /\
    exit_status (Traceback e) <> 10 /\
    stdout_of t = [] /\ stderr_of t = [].
Proof.
  intros Hready Hfail. eexists. split; [|split; [reflexivity|]].
  - apply (run_script_of_main _ _ (Raise e)).
    apply main_self_check_raises; [exact Hready|now left].
  - rewrite stdout_of_app, stderr_of_app, stdout_of_polled, stderr_of_polled.
    repeat split; discriminate.
Qed.

(** C3 (as amended).  For a self-check response whose body parses as a JSON
    object that can be printed ([json.dumps] serializes it and standard
    output can encode the text), and whose status is below 400: when the
    object's [ok] is the boolean true the process exits 0; otherwise it
    exits 1 and standard error receives, when [checks] is a list, one line
    [[FAILED] name: detail] for each element that is an object whose
    [passed] is not the boolean true, in order, and no line for any other
    element (and none at all when [checks] is not a list).  In such a line
    the name is [unknown] when the check's name is missing or empty, the
    detail is empty when the check's detail is missing, a string name or
    detail is printed as it is, and a name or detail of another type is
    replaced in the same way when it is false in Python's sense and printed
    as its [repr] otherwise. *)
Theorem verdict_from_body args k status raw body report :
  first_ready_at net environ args k ->
  delivered (net k (self_check_request environ args)) = Some (status, raw) ->
  json_loads raw = inl (PyDict body) ->
  json_dumps (PyDict body) = Some report ->
  stdout_encodes report = true ->
  status < 400 ->
  (lookup body "ok" = Some (PyBool true) ->
   run_script net environ (Namespace args) []
   = (Exited 0,
      polled (health_request environ args) (retry_delay args) k
        ++ [Urlopen (self_check_request environ args); Stdout report])) /\
  (lookup body "ok" <> Some (PyBool true) ->
   run_script net environ (Namespace args) []
   = (Exited 1,
      polled (health_request environ args) (retry_delay args) k
        ++ Urlopen (self_check_request environ args)
        :: Stdout report
        :: map Stderr (reported body))) /\
  (forall item : dict,
     exists name detail,
       failed_line item = ("[FAILED] " ++ name ++ ": " ++ detail)%string /\
       (lookup item "name" = None \/ lookup item "name" = Some (PyStr EmptyString) ->
        name = "unknown"%string) /\
       (forall s, lookup item "name" = Some (PyStr s) -> s <> EmptyString ->
                  name = s) /\
       (forall v, lookup item "name" = Some v -> (forall s, v <> PyStr s) ->
                  name = if truthy v then repr v else "unknown"%string) /\
       (lookup item "detail" = None -> detail = EmptyString) /\
       (forall s, lookup item "detail" = Some (PyStr s) -> detail = s) /\
       (forall v, lookup item "detail" = Some v -> (forall s, v <> PyStr s) ->
                  detail = if truthy v then repr v else EmptyString)).
Proof.
  intros Hready Hgot Hparse%parsed_object Hdumps Henc Hstatus.
  split; [|split].
  - intros Hok. apply (run_script_of_main _ _ (SystemExit 0)).
    now apply main_passed with (status := status) (raw := raw) (body := body).
  - intros Hok. apply (run_script_of_main _ _ (SystemExit 1)).
    now apply main_checks_failed with (status := status) (raw := raw).
  - intros item. eexists _, _. split; [reflexivity|].
    unfold dict_get, py_or. repeat split.
    + intros [-> | ->]; reflexivity.
    + intros s -> Hs. destruct s; [now elim Hs|reflexivity].
    + intros v -> Hkind. destruct (truthy v); [|reflexivity].
      destruct v; try reflexivity. now elim (Hkind s).
    + intros ->. reflexivity.
    + intros s ->. now destruct s.
    + intros v -> Hkind. destruct (truthy v); [|reflexivity].
      destruct v; try reflexivity. now elim (Hkind s).
Qed.

(** C4 (as amended).  For a self-check response with status 400 or more
    whose body parses as a JSON object that can be printed ([json.dumps]
    serializes it and standard output can encode the text), the process
    prints the report, then on standard error the line
    [self-check endpoint returned HTTP] followed by the status in decimal,
    and exits 20, whatever the object's [ok] field is. *)
Theorem status_gate_precedes_ok_gate args k status raw body report :
  first_ready_at net environ args k ->
  delivered (net k (self_check_request environ args)) = Some (status, raw) ->
  json_loads raw = inl (PyDict body) ->
  json_dumps (PyDict body) = Some report ->
  stdout_encodes report = true ->
  400 <= status ->
  run_script net environ (Namespace args) []
  = (Exited 20,
     polled (health_request environ args) (retry_delay args) k
       ++ [Urlopen (self_check_request environ args);
           Stdout report;
           Stderr ("self-check endpoint returned HTTP "
                   ++ NilZero.string_of_int (Z.to_int status))%string]) /\
  option_map Z.of_int (NilZero.int_of_string (format_int status)) = Some status.
Proof.
  intros Hready Hgot Hparse%parsed_object Hdumps Henc Hstatus.
  split; [|apply format_int_decimal].
  apply (run_script_of_main _ _ (SystemExit 20)).
  now apply main_http_error with (raw := raw) (body := body).
Qed.

(** C5 (as amended).  For a self-check response whose body [json.loads]
    rejects as not JSON ([JSONDecodeError]) or decodes to a value that is
    not an object, and which standard output can encode, the process prints
    the raw body as it is on standard output, the line
    [self-check response is not valid JSON] on standard error, and exits
    20, whatever the status. *)
Theorem invalid_response_exits_20 args k status raw :
  first_ready_at net environ args k ->
  delivered (net k (self_check_request environ args)) = Some (status, raw) ->
  ((exists msg, json_loads raw = inr (NotJSON msg)) \/
   exists v, json_loads raw = inl v /\ forall d, v <> PyDict d) ->
  stdout_encodes raw = true ->
  run_script net environ (Namespace args) []
  = (Exited 20,
     polled (health_request environ args) (retry_delay args) k
       ++ [Urlopen (self_check_request environ args);
           Stdout raw;
           Stderr "self-check response is not valid JSON"]).
Proof.
  intros Hready Hgot Hparse%parsed_none Henc.
  apply (run_script_of_main _ _ (SystemExit 20)).
  now apply main_not_json with (status := status).
Qed.

(** C6 (as amended).  A health attempt that ends in a transport failure or
    a timeout is not counted as a failed attempt: the exception leaves the
    loop.  When it happens at attempt j, after j - 1 attempts that came
    back not ready, the run is the j requests with the j - 1 sleeps between
    them and nothing more (no sleep after it, no further request, no
    diagnostic), and the process ends in the traceback of that exception
    with exit status 1. *)
Theorem health_transport_failure_is_uncaught args j e :
  (1 <= j)%nat -> Z.of_nat j <= health_retries args ->
  request_error (health_url args) = None ->
  (forall i, (i < Nat.pred j)%nat ->
             answered_not_ready (net i (health_request environ args))) ->
  ((1 < j)%nat -> sleep_refusal (retry_delay args) = None) ->
  transport_failure (net (Nat.pred j) (health_request environ args)) e ->
  run_script net environ (Namespace args) []
  = (Traceback e, polled (health_request environ args) (retry_delay args) j)
  /\ exit_status (Traceback e) = 1.
Proof.
  intros Hj Hle Hurl Hnet Hdelay Hfail. split; [|reflexivity].
  apply (run_script_of_main _ _ (Raise e)).
  enter_health. apply bind_raise.
  apply ensure_health_raise; try assumption. now left.
Qed.


(** C8 (as amended).  Whenever the self-check body parses as a JSON object
    that can be printed ([json.dumps] serializes it and standard output can
    encode the text), that text is the first thing printed after the
    self-check request, before anything the status gate or the [ok] gate
    prints: the report is there on the exit-20 path of a status of 400 or
    more, on the exit-0 path and on the exit-1 path alike.  When the object
    cannot be printed, nothing is printed and the run ends in the traceback
    of the exception ([RecursionError] from [json.dumps],
    [UnicodeEncodeError] from [print]) before either gate is looked at. *)
Theorem report_printed_before_gates args k status raw body :
  first_ready_at net environ args k ->
  delivered (net k (self_check_request environ args)) = Some (status, raw) ->
  json_loads raw = inl (PyDict body) ->
  (forall report,
     json_dumps (PyDict body) = Some report ->
     stdout_encodes report = true ->
     exists code errs,
       run_script net environ (Namespace args) []
       = (Exited code,
          polled (health_request environ args) (retry_delay args) k
            ++ Urlopen (self_check_request environ args)
            :: Stdout report
            :: map Stderr errs) /\
       (code = 20 <-> 400 <= status) /\
       (code = 0 <-> status < 400 /\ lookup body "ok" = Some (PyBool true)) /\
       (code = 1 <-> status < 400 /\ lookup body "ok" <> Some (PyBool true))) /\
  (json_dumps (PyDict body) = None ->
   run_script net environ (Namespace args) []
   = (Traceback RecursionError,
      polled (health_request environ args) (retry_delay args) k
        ++ [Urlopen (self_check_request environ args)])) /\
  (forall report,
     json_dumps (PyDict body) = Some report ->
     stdout_encodes report = false ->
     run_script net environ (Namespace args) []
     = (Traceback UnicodeEncodeError,
        polled (health_request environ args) (retry_delay args) k
          ++ [Urlopen (self_check_request environ args)])).
Proof.
  intros Hready Hgot Hparse%parsed_object. split; [|split].
  - intros report Hdumps Henc.
    destruct (Z.le_gt_cases 400 status) as [Herr|Hfine].
    + exists 20, [("self-check endpoint returned HTTP " ++ format_int status)%string].
      split; [|repeat split; intros; try lia].
      apply (run_script_of_main _ _ (SystemExit 20)).
      now apply main_http_error with (raw := raw) (body := body).
    + destruct (is_True (dict_get body "ok")) eqn:Hok.
      * apply is_True_get in Hok. exists 0, [].
        split; [|repeat split; intros; try lia; try easy].
        apply (run_script_of_main _ _ (SystemExit 0)).
        now apply main_passed with (status := status) (raw := raw) (body := body).
      * assert (Hnot : lookup body "ok" <> Some (PyBool true))
          by (intros E%is_True_get; congruence).
        exists 1, (reported body).
        split; [|repeat split; intros; try lia; try easy].
        apply (run_script_of_main _ _ (SystemExit 1)).
        now apply main_checks_failed with (status := status) (raw := raw).
  - intros Hdumps. apply (run_script_of_main _ _ (Raise RecursionError)).
    now apply main_report_too_deep with (status := status) (raw := raw) (body := body).
  - intros report Hdumps Henc.
    apply (run_script_of_main _ _ (Raise UnicodeEncodeError)).
    now apply main_report_refused
      with (status := status) (raw := raw) (body := body) (report := report).
Qed.

(** C9.  A run is a function of its command line, its environment and the
    answers it gets: two runs with the same command line whose requests are
    answered alike, started in worlds with any past whatever, end the same
    way (same verdict, same exit status) and add the same events (same
    requests, same sleeps, same printed lines). *)
Theorem runs_are_stateless (net1 net2 : Service) command (t1 t2 : trace) :
  same_answers net1 net2 (requests_in t1) (requests_in t2) ->
  exists end_ out,
    run_script net1 environ command t1 = (end_, t1 ++ out) /\
    run_script net2 environ command t2 = (end_, t2 ++ out).
Proof.
  intros Hsame.
  destruct (stateless_main command _ _ _ _ Hsame) as (r & out & E1 & E2).
  unfold run_script. rewrite E1, E2.
  destruct r as [a|code|e]; eexists _, out; split; reflexivity.
Qed.

(** C10.  With a retry count of zero or less the loop body never runs: no
    request is issued, and the run is the readiness-failure line on
    standard error followed by exit code 10. *)
Theorem no_attempt_without_retries args :
  health_retries args <= 0 ->
  run_script net environ (Namespace args) []
  = (Exited 10, [Stderr "health check failed: runtime not ready"]).
Proof.
  intros Hr. apply (run_script_of_main _ _ (SystemExit 10)).
  enter_health. apply bind_exit.
  now apply ensure_health_no_attempt.
Qed.

(** * Further properties of the script *)

(** X1.  [main] never returns: it always leaves through [sys.exit] or an
    exception, whatever the command line and whatever the service answers.
    The exit status of the process is always 0, 1, 2, 10 or 20, and it is 2
    exactly when [argparse] rejects the command line. *)
Theorem exit_status_is_one_of_five command :
  (forall a t, main net environ command [] <> (Normal a, t)) /\
  (exit_status (fst (run_script net environ command [])) = 0 \/
   exit_status (fst (run_script net environ command [])) = 1 \/
   exit_status (fst (run_script net environ command [])) = 2 \/
   exit_status (fst (run_script net environ command [])) = 10 \/
   exit_status (fst (run_script net environ command [])) = 20) /\
  (exit_status (fst (run_script net environ command [])) = 2 <->
   exists usage message, command = UsageError usage message).
Proof.
  destruct command as [args|help|usage message].
  - destruct (run_script_ends args) as (r & t & Hends & Hmain & Hrun).
    rewrite Hrun, Hmain. split; [|split].
    + intros a t' [= -> _]. inversion Hends.
    + destruct Hends; cbn; auto.
    + split; [|now intros (? & ? & [=])].
      destruct Hends; cbn; discriminate.
  - unfold run_script. rewrite main_help.
    destruct (stdout_encodes help); cbn; (split; [discriminate|]);
      (split; [auto|]); (split; [discriminate|now intros (? & ? & [=])]).
  - unfold run_script. rewrite main_usage. cbn.
    split; [discriminate|]. split; [auto|]. split; [|reflexivity].
    intros _. now exists usage, message.
Qed.

(** X2.  No false pass: a run exits 0 only when the command line asks for
    the help, or when some health attempt came back ready and the
    self-check was answered with a status below 400 and a JSON object whose
    [ok] is the boolean true; the run is then the health requests, the
    self-check request and the report on standard output, with nothing on
    standard error. *)
Theorem exit_0_only_if_self_check_passed command t :
  run_script net environ command [] = (Exited 0, t) ->
  (exists help,
     command = HelpRequested help /\ stdout_encodes help = true /\
     t = [Stdout help]) \/
  (exists args k status raw body report,
     command = Namespace args /\
     first_ready_at net environ args k /\
     delivered (net k (self_check_request environ args)) = Some (status, raw) /\
     json_loads raw = inl (PyDict body) /\
     json_dumps (PyDict body) = Some report /\
     status < 400 /\
     lookup body "ok" = Some (PyBool true) /\
     t = polled (health_request environ args) (retry_delay args) k
         ++ [Urlopen (self_check_request environ args); Stdout report] /\
     stderr_of t = []).
Proof.
  destruct command as [args|help|usage message].
  - destruct (run_script_ends args) as (r & t' & Hends & _ & Hrun).
    rewrite Hrun. intros [= Hr <-].
    destruct Hends; try discriminate.
    right. exists args, k, status, raw, body, report.
    repeat (split; [assumption || reflexivity|]).
    now rewrite stderr_of_app, stderr_of_polled.
  - unfold run_script. rewrite main_help.
    destruct (stdout_encodes help) eqn:Henc; [|discriminate].
    intros [= <-]. left. now exists help.
  - unfold run_script. rewrite main_usage. discriminate.
Qed.

(** X3.  A run exits 10 only when no health attempt came back ready: all
    [max R 0] attempts were made and answered not ready, the only line
    printed is the readiness diagnostic on standard error, and the
    self-check endpoint was not requested. *)
Theorem exit_10_only_if_never_ready args t :
  run_script net environ (Namespace args) [] = (Exited 10, t) ->
  (forall i, (i < Z.to_nat (health_retries args))%nat ->
             answered_not_ready (net i (health_request environ args))) /\
  requests_to (health_url args) t = Z.to_nat (health_retries args) /\
  requests_to (self_check_url args) t = 0%nat /\
  stdout_of t = [] /\
  stderr_of t = ["health check failed: runtime not ready"%string].
Proof.
  destruct (run_script_ends args) as (r & t' & Hends & _ & Hrun).
  rewrite Hrun. intros [= Hr <-].
  destruct Hends; try discriminate.
  - replace (Z.to_nat (health_retries args)) with 0%nat by lia.
    repeat split. intros i Hi. lia.
  - rewrite !requests_to_app, !requests_to_polled by lia.
    rewrite stdout_of_app, stderr_of_app, stdout_of_polled, stderr_of_polled.
    cbn [health_request req_url]. unfold health_url at 1.
    rewrite String.eqb_refl, health_is_not_self_check.
    repeat split; [assumption|cbn; lia].
Qed.

(** X4.  A run exits 20 only when some health attempt came back ready and
    the self-check was answered either with a body that is not a JSON object
    or with a status of 400 or more. *)
Theorem exit_20_only_if_bad_answer args t :
  run_script net environ (Namespace args) [] = (Exited 20, t) ->
  exists k status raw,
    first_ready_at net environ args k /\
    delivered (net k (self_check_request environ args)) = Some (status, raw) /\
    ((forall body, json_loads raw <> inl (PyDict body)) \/
     (400 <= status /\ exists body, json_loads raw = inl (PyDict body))).
Proof.
  destruct (run_script_ends args) as (r & t' & Hends & _ & Hrun).
  rewrite Hrun. intros [= Hr <-].
  destruct Hends as
    [Hr' | msg Hr' Hurl | Hr' Hurl Hall Hdelay
     | j e Hj Hle Hurl Hbefore Hdelay Hfail | failure Hr' Hurl Hnot Hneg
     | k e Hready Hfail | k status raw Hready Hgot Hbad Henc
     | k status raw Hready Hgot Hbad Henc
     | k status raw body Hready Hgot Hloads Hdumps
     | k status raw body report Hready Hgot Hloads Hdumps Henc
     | k status raw body report Hready Hgot Hloads Hdumps Henc Hstatus
     | k status raw body report Hready Hgot Hloads Hdumps Henc Hstatus Hok
     | k status raw body report Hready Hgot Hloads Hdumps Henc Hstatus Hok ];
    try discriminate.
  - exists k, status, raw. split; [assumption|]. split; [assumption|].
    left. intros body Hbody%parsed_object. congruence.
  - exists k, status, raw. split; [assumption|]. split; [assumption|].
    right. split; [assumption|now exists body].
Qed.

(** X5.  A run ends through [sys.exit(1)] only when some health attempt came
    back ready and the self-check was answered with a status below 400 and a
    JSON object whose [ok] is not the boolean true; standard output then
    holds the re-serialized object and standard error exactly the lines of
    the failing checks. *)
Theorem exit_1_only_if_checks_failed args t :
  run_script net environ (Namespace args) [] = (Exited 1, t) ->
  exists k status raw body report,
    first_ready_at net environ args k /\
    delivered (net k (self_check_request environ args)) = Some (status, raw) /\
    json_loads raw = inl (PyDict body) /\
    json_dumps (PyDict body) = Some report /\
    status < 400 /\
    lookup body "ok" <> Some (PyBool true) /\
    stdout_of t = [report] /\
    stderr_of t = reported body.
Proof.
  destruct (run_script_ends args) as (r & t' & Hends & _ & Hrun).
  rewrite Hrun. intros [= Hr <-].
  destruct Hends; try discriminate.
  exists k, status, raw, body, report. do 6 (split; [assumption|]). split.
  - rewrite stdout_of_app, stdout_of_polled.
    change (stdout_of (Urlopen (self_check_request environ args)
                       :: Stdout report
                       :: map Stderr (reported body)))
      with (report :: stdout_of (map Stderr (reported body))).
    now rewrite stdout_of_map_stderr.
  - rewrite stderr_of_app, stderr_of_polled.
    change (stderr_of (Urlopen (self_check_request environ args)
                       :: Stdout report
                       :: map Stderr (reported body)))
      with (stderr_of (map Stderr (reported body))).
    now rewrite stderr_of_map_stderr.
Qed.

Lemma attempt_raises_no_http_error answer e code body :
  attempt_raises answer e -> e <> HTTPError code body.
Proof.
  intros [[_ Hkind]|(status & raw & _ & Hparse)]; [apply Hkind|].
  apply parsed_raises in Hparse as [(msg & _ & ->)|[_ ->]]; discriminate.
Qed.

(** X6.  An HTTP error status never ends the run in a traceback: whatever
    the command line and whatever the service answers, the exception that
    ends a run is never an [HTTPError]. *)
Theorem no_traceback_of_http_error command code body :
  fst (run_script net environ command []) <> Traceback (HTTPError code body).
Proof.
  destruct command as [args|help|usage message].
  - destruct (run_script_ends args) as (r & t & Hends & _ & Hrun).
    rewrite Hrun. cbn [fst].
    destruct Hends; try discriminate;
      try match goal with
        | Hfail : attempt_raises _ ?e |- _ =>
            intros [= ->]; now elim (attempt_raises_no_http_error _ _ code body Hfail)
        end.
    destruct failure; discriminate.
  - unfold run_script. rewrite main_help.
    destruct (stdout_encodes help); discriminate.
  - unfold run_script. rewrite main_usage. discriminate.
Qed.

(** X7.  In every run with an accepted command line, whatever the service
    answers, the requests and sleeps are, in order: some health requests, at
    most [max R 0] of them, with exactly one sleep of the configured delay
    between two consecutive ones and no sleep before the first or after the
    last; then at most one self-check request; and nothing else. *)
Theorem requests_and_sleeps_are_bounded args :
  calls_of (snd (run_script net environ (Namespace args) [])) = [] \/
  exists j,
    (1 <= j)%nat /\ Z.of_nat j <= health_retries args /\
    (calls_of (snd (run_script net environ (Namespace args) []))
     = polled (health_request environ args) (retry_delay args) j \/
     calls_of (snd (run_script net environ (Namespace args) []))
     = polled (health_request environ args) (retry_delay args) j
       ++ [Urlopen (self_check_request environ args)]).
Proof.
  destruct (run_script_ends args) as (r & t & Hends & _ & Hrun).
  rewrite Hrun. cbn [snd].
  destruct (main_ends_shape _ _ _ Hends)
    as (j & hp & sc & out & -> & Hhp & Hj & Hsc & Hout).
  assert (Hsc' : sc = [] \/ sc = [Urlopen (self_check_request environ args)])
    by (destruct Hsc as [->|[-> _]]; auto).
  destruct (shape_counts args j hp sc out Hhp Hsc' Hout) as (_ & _ & _ & _ & ->).
  destruct Hhp as [[-> ->]|[Hpos ->]].
  - destruct Hsc as [->|[_ (Hk & _)]]; [now left|lia].
  - right. exists j. split; [exact Hpos|]. split; [lia|].
    destruct Hsc as [->|[-> _]]; [left; now rewrite app_nil_r|now right].
Qed.

Lemma some_attempt_ready_iff args :
  (exists k, came_back_ready net environ args k) <->
  (exists k, first_ready_at net environ args k).
Proof.
  split; intros [k Hk]; exists k; now apply came_back_ready_first_ready.
Qed.

(** X8.  The self-check endpoint is requested exactly when some health
    attempt of the run came back ready: it is requested once in that case,
    and not at all otherwise. *)
Theorem self_check_requested_iff_ready args :
  ((exists k, came_back_ready net environ args k) <->
   requests_to (self_check_url args)
     (snd (run_script net environ (Namespace args) [])) = 1%nat)
  /\
  (~ (exists k, came_back_ready net environ args k) <->
   requests_to (self_check_url args)
     (snd (run_script net environ (Namespace args) [])) = 0%nat).
Proof.
  rewrite some_attempt_ready_iff.
  assert (Hyes : (exists k, first_ready_at net environ args k) ->
                 requests_to (self_check_url args)
                   (snd (run_script net environ (Namespace args) [])) = 1%nat).
  { intros [k Hready]. pose proof Hready as (Hk & _).
    destruct (main_after_ready _ _ Hready) as (r & out & Hmain & Hout).
    rewrite (run_script_of_main _ _ _ _ Hmain). cbn [snd].
    change (Urlopen (self_check_request environ args) :: out)
      with ([Urlopen (self_check_request environ args)] ++ out).
    rewrite !requests_to_app, requests_to_polled by exact Hk.
    rewrite (requests_to_prints _ out Hout).
    destruct (requests_to_self_check_request args) as [-> _].
    cbn [health_request req_url]. now rewrite health_is_not_self_check. }
  assert (Hno : requests_to (self_check_url args)
                  (snd (run_script net environ (Namespace args) [])) <> 0%nat ->
                exists k, first_ready_at net environ args k).
  { destruct (run_script_ends args) as (r & t & Hends & _ & Hrun).
    rewrite Hrun. cbn [snd].
    destruct (main_ends_shape _ _ _ Hends)
      as (j & hp & sc & out & -> & Hhp & Hj & Hsc & Hout).
    destruct Hsc as [->|[_ Hready]]; [|now exists j].
    rewrite !requests_to_app, (requests_to_prints _ out Hout).
    destruct Hhp as [[_ ->]|[Hpos ->]]; [now intros Hne|].
    rewrite requests_to_polled by exact Hpos.
    cbn [health_request req_url]. rewrite health_is_not_self_check.
    now intros Hne. }
  split; split.
  - exact Hyes.
  - intros Hone. apply Hno. lia.
  - intros Hnever.
    destruct (requests_to (self_check_url args)
                (snd (run_script net environ (Namespace args) []))) eqn:Hcount;
      [reflexivity|].
    elim Hnever. apply Hno. lia.
  - intros Hzero Hready. apply Hyes in Hready. lia.
Qed.

Lemma run_requests args req :
  In (Urlopen req) (snd (run_script net environ (Namespace args) [])) ->
  req = health_request environ args \/ req = self_check_request environ args.
Proof.
  destruct (run_script_ends args) as (r & t & Hends & _ & Hrun).
  rewrite Hrun. cbn [snd].
  destruct (main_ends_shape _ _ _ Hends)
    as (j & hp & sc & out & -> & Hhp & Hj & Hsc & Hout).
  intros [Hin|[Hin|Hin]%in_app_or]%in_app_or.
  - destruct Hhp as [[_ ->]|[_ ->]]; [now elim Hin|].
    apply in_polled in Hin as ->. now left.
  - destruct Hsc as [->|[-> _]]; [now elim Hin|].
    destruct Hin as [[= <-]|[]]. now right.
  - now apply not_in_prints in Hin.
Qed.

(** X9.  Every request of a run is one of the two the script builds: a [GET]
    of [{base}/housekeeper/health] with the health timeout, or a [GET] of
    [{base}/housekeeper/self-check] with a timeout of 20 seconds, both with
    the same headers; no other method, address or header is ever used. *)
Theorem every_request_is_configured args req :
  In (Urlopen req) (snd (run_script net environ (Namespace args) [])) ->
  (req = health_request environ args \/ req = self_check_request environ args) /\
  req_method req = "GET"%string /\
  req_headers req = headers_of environ args.
Proof.
  intros Hin%run_requests. split; [exact Hin|].
  now destruct Hin as [-> | ->].
Qed.

Lemma stdout_of_verdict args k body errs :
  stdout_of (polled (health_request environ args) (retry_delay args) k
             ++ Urlopen (self_check_request environ args)
             :: Stdout body :: map Stderr errs)
  = [body].
Proof.
  rewrite stdout_of_app, stdout_of_polled.
  change (stdout_of (Urlopen (self_check_request environ args)
                     :: Stdout body :: map Stderr errs))
    with (body :: stdout_of (map Stderr errs)).
  now rewrite stdout_of_map_stderr.
Qed.

(** X10.  Standard output receives at most one text.  Whatever is on it is
    the only text there, is a text the stream can encode, and is the raw
    body of an answered self-check whose body is not a JSON object, or the
    re-serialized object of one whose body is.  Conversely an answered
    self-check of one of these two kinds whose text can be printed puts
    exactly that text on standard output.  In every other run with an
    accepted command line standard output stays empty. *)
Theorem stdout_is_the_answer_or_nothing args :
  (forall text,
     In text (stdout_of (snd (run_script net environ (Namespace args) []))) ->
     stdout_of (snd (run_script net environ (Namespace args) [])) = [text] /\
     stdout_encodes text = true /\
     exists k status raw,
       first_ready_at net environ args k /\
       delivered (net k (self_check_request environ args)) = Some (status, raw) /\
       ((parsed raw = inl None /\ text = raw) \/
        (exists body,
           json_loads raw = inl (PyDict body) /\
           json_dumps (PyDict body) = Some text))) /\
  (forall k status raw,
     first_ready_at net environ args k ->
     delivered (net k (self_check_request environ args)) = Some (status, raw) ->
     (parsed raw = inl None -> stdout_encodes raw = true ->
      stdout_of (snd (run_script net environ (Namespace args) [])) = [raw]) /\
     (forall body report,
        json_loads raw = inl (PyDict body) ->
        json_dumps (PyDict body) = Some report ->
        stdout_encodes report = true ->
        stdout_of (snd (run_script net environ (Namespace args) [])) = [report])).
Proof.
  split.
  - destruct (run_script_ends args) as (r & t & Hends & _ & Hrun).
    rewrite Hrun. cbn [snd]. intros text.
    destruct Hends as
      [Hr | msg Hr Hurl | Hr Hurl Hall Hdelay
       | j e Hj Hle Hurl Hbefore Hdelay Hfail | failure Hr Hurl Hnot Hneg
       | k e Hready Hfail | k status raw Hready Hgot Hbad Henc
       | k status raw Hready Hgot Hbad Henc
       | k status raw body Hready Hgot Hloads Hdumps
       | k status raw body report Hready Hgot Hloads Hdumps Henc
       | k status raw body report Hready Hgot Hloads Hdumps Henc Hstatus
       | k status raw body report Hready Hgot Hloads Hdumps Henc Hstatus Hok
       | k status raw body report Hready Hgot Hloads Hdumps Henc Hstatus Hok ];
      rewrite ?stdout_of_verdict;
      rewrite ?stdout_of_app, ?stdout_of_polled;
      cbn [stdout_of flat_map app];
      try (intros []; fail);
      intros [<-|[]]; (split; [reflexivity|]); (split; [exact Henc|]);
      exists k, status, raw; (split; [exact Hready|]); (split; [exact Hgot|]).
    + left. now split.
    + right. now exists body.
    + right. now exists body.
    + right. now exists body.
  - intros k status raw Hready Hgot. split.
    + intros Hbad Henc.
      rewrite (run_script_of_main _ _ _ _
                 (main_not_json _ _ _ _ Hready Hgot Hbad Henc)).
      cbn [snd]. now rewrite stdout_of_app, stdout_of_polled.
    + intros body report Hloads%parsed_object Hdumps Henc.
      destruct (Z.le_gt_cases 400 status) as [Herr|Hfine].
      * rewrite (run_script_of_main _ _ _ _
                   (main_http_error _ _ _ _ _ _ Hready Hgot Hloads Hdumps Henc Herr)).
        cbn [snd]. now rewrite stdout_of_app, stdout_of_polled.
      * destruct (is_True (dict_get body "ok")) eqn:Hok.
        -- apply is_True_get in Hok.
           rewrite (run_script_of_main _ _ _ _
                      (main_passed _ _ _ _ _ _ Hready Hgot Hloads Hdumps Henc
                         Hfine Hok)).
           cbn [snd]. now rewrite stdout_of_app, stdout_of_polled.
        -- assert (Hnot : lookup body "ok" <> Some (PyBool true))
             by (intros E%is_True_get; congruence).
           rewrite (run_script_of_main _ _ _ _
                      (main_checks_failed _ _ _ _ _ _ Hready Hgot Hloads Hdumps
                         Henc Hfine Hnot)).
           cbn [snd]. apply stdout_of_verdict.
Qed.

(** ** The base address *)

Lemma rstrip_app_char s c : rstrip (s ++ String c EmptyString) c = rstrip s c.
Proof.
  induction s as [|a s IH]; cbn [String.append rstrip].
  - now rewrite Ascii.eqb_refl.
  - now rewrite IH.
Qed.

Lemma rstrip_app_copies s c n : rstrip (s ++ copies c n) c = rstrip s c.
Proof.
  revert s. induction n as [|n IH]; intros s; cbn [copies].
  - f_equal. induction s as [|a s IHs]; cbn; [reflexivity|now rewrite IHs].
  - replace (s ++ String c (copies c n))%string
      with ((s ++ String c EmptyString) ++ copies c n)%string.
    + now rewrite IH, rstrip_app_char.
    + induction s as [|a s IHs]; cbn; [reflexivity|now rewrite IHs].
Qed.

(** X11.  [rstrip] removes exactly the trailing run of the character: the
    string is the result followed by some copies of the character, and the
    result does not end with the character.  So the base address is the
    endpoint without its trailing slashes, and nothing else is changed. *)
Theorem rstrip_removes_the_trailing_run s c :
  (exists n, s = (rstrip s c ++ copies c n)%string) /\
  last_char (rstrip s c) <> Some c.
Proof.
  induction s as [|a s [[n Hs] Hlast]]; cbn [rstrip].
  - split; [now exists 0%nat|discriminate].
  - destruct (rstrip s c) as [|b kept] eqn:Hkept.
    + destruct (Ascii.eqb a c) eqn:Hac.
      * apply Ascii.eqb_eq in Hac as ->. split; [|discriminate].
        exists (S n). cbn. now rewrite Hs at 1.
      * apply Ascii.eqb_neq in Hac. split; [|cbn; congruence].
        exists n. cbn. now rewrite Hs at 1.
    + split; [exists n; cbn; now rewrite Hs at 1|exact Hlast].
Qed.

(** X12.  Trailing slashes of the endpoint do not matter: a run with
    endpoint [e] followed by any number of slashes is the run with endpoint
    [e], event for event. *)
Theorem trailing_slashes_are_ignored e n tok retries timeout delay t0 :
  run_script net environ
    (Namespace (mkArgs (e ++ copies "/" n) tok retries timeout delay)) t0
  = run_script net environ (Namespace (mkArgs e tok retries timeout delay)) t0.
Proof.
  unfold run_script, main. rewrite !main_namespace.
  cbn [endpoint token health_retries health_timeout retry_delay].
  now rewrite rstrip_app_copies.
Qed.

(** ** The token *)

(** X13.  A token given on the command line wins over the environment: when
    [--token] is not empty, the run does not depend on the environment at
    all. *)
Theorem command_line_token_wins (environ1 environ2 : string -> option string)
    args t0 :
  token args <> EmptyString ->
  run_script net environ1 (Namespace args) t0
  = run_script net environ2 (Namespace args) t0.
Proof.
  intros Htoken. unfold run_script, main. rewrite !main_namespace.
  destruct (token args) as [|a tok]; [now elim Htoken|reflexivity].
Qed.

(** X14.  The headers of the requests of a run: with a non-empty [--token]
    every request carries exactly [Authorization: Bearer <token>]; with an
    empty [--token] and a non-empty [BLAB_HOUSEKEEPER_TOKEN] every request
    carries exactly [Authorization: Bearer <that value>]; with both empty or
    the variable unset no request carries any header. *)
Theorem requests_carry_the_bearer_token args :
  (token args <> EmptyString ->
   forall req, In (Urlopen req) (snd (run_script net environ (Namespace args) [])) ->
               req_headers req
               = [("Authorization", "Bearer " ++ token args)%string]) /\
  (token args = EmptyString ->
   forall v, environ "BLAB_HOUSEKEEPER_TOKEN" = Some v -> v <> EmptyString ->
   forall req, In (Urlopen req) (snd (run_script net environ (Namespace args) [])) ->
               req_headers req = [("Authorization", "Bearer " ++ v)%string]) /\
  (token args = EmptyString ->
   environ "BLAB_HOUSEKEEPER_TOKEN" = None \/
   environ "BLAB_HOUSEKEEPER_TOKEN" = Some EmptyString ->
   forall req, In (Urlopen req) (snd (run_script net environ (Namespace args) [])) ->
               req_headers req = []).
Proof.
  assert (Hheaders : forall req,
            In (Urlopen req) (snd (run_script net environ (Namespace args) [])) ->
            req_headers req = headers_of environ args).
  { intros req [-> | ->]%run_requests; reflexivity. }
  split; [|split].
  - intros Htoken req ->%Hheaders. unfold headers_of, token_of.
    destruct (token args); [now elim Htoken|reflexivity].
  - intros Htoken v Henv Hv req ->%Hheaders. unfold headers_of, token_of.
    rewrite Htoken, Henv. cbn. destruct v; [now elim Hv|reflexivity].
  - intros Htoken Henv req ->%Hheaders. unfold headers_of, token_of.
    rewrite Htoken. now destruct Henv as [-> | ->].
Qed.

(** ** The lines of the failing checks *)


(** ** The delay *)

(** X16.  The delay is only looked at when a sleep is due, and a negative
    one is refused there: with at least two attempts allowed, an accepted
    address and a negative delay, a first health attempt that comes back not
    ready is followed by the exception of [time.sleep] (the [ValueError] of
    a negative argument, or [OverflowError] when its magnitude is too large
    for the clock), and the run ends in its traceback after that single
    request. *)
Theorem negative_delay_ends_the_run args :
  1 < health_retries args ->
  request_error (health_url args) = None ->
  answered_not_ready (net 0%nat (health_request environ args)) ->
  negative (retry_delay args) ->
  exists e,
    run_script net environ (Namespace args) []
    = (Traceback e, [Urlopen (health_request environ args)]) /\
    (e = ValueError "sleep length must be non-negative" \/ e = OverflowError) /\
    exit_status (Traceback e) = 1.
Proof.
  intros Hr Hurl Hnot Hneg.
  assert (Hrun : forall failure,
            sleep_refusal (retry_delay args) = Some failure ->
            run_script net environ (Namespace args) []
            = (Traceback (sleep_exn failure),
               [Urlopen (health_request environ args)])).
  { intros failure Hsleep. apply (run_script_of_main _ _ (Raise _)).
    enter_health. apply bind_raise.
    now apply ensure_health_sleep_raise. }
  destruct (sleep_refuses_negative _ Hneg) as [Hsleep|Hsleep];
    eexists; (split; [exact (Hrun _ Hsleep)|]); (split; [|reflexivity]).
  - now right.
  - now left.
Qed.

(** ** [request_json] *)

(** X17.  [request_json] refuses an address without a scheme before any
    request is made, with the [ValueError] of [urllib.request.Request].  For
    any other address it makes exactly one request and hands back every
    HTTP answer, whatever its status: it returns the status and body of a
    response and of an [HTTPError] alike, never exits, and the only
    exceptions it lets through are those that are not an [HTTPError]. *)
Theorem request_json_returns_every_status method url headers timeout t :
  (forall msg, request_error url = Some msg ->
     request_json net method url headers timeout t
     = (Raise (ValueError msg), t)) /\
  (request_error url = None ->
   exists r,
     request_json net method url headers timeout t
     = (r, t ++ [Urlopen (mkRequest method url headers timeout)]) /\
     (forall response,
        delivered (net (requests_in t) (mkRequest method url headers timeout))
        = Some response -> r = Normal response) /\
     (forall e,
        transport_failure
          (net (requests_in t) (mkRequest method url headers timeout)) e ->
        r = Raise e) /\
     (forall code, r <> SystemExit code) /\
     (forall code body, r <> Raise (HTTPError code body))).
Proof.
  split; [intros msg; apply request_json_refused|].
  intros Hurl. unfold request_json, new_request, bind. rewrite Hurl.
  unfold ret, try_except, urlopen.
  destruct (net _ _) as [response|e]; cbn.
  - eexists. split; [reflexivity|]. repeat split; try discriminate.
    + now intros ? [= ->].
    + now intros ? [[=] _].
  - destruct e; cbn; eexists; (split; [reflexivity|]);
      repeat split; try discriminate;
      try (now intros ? [= ->]); try (now intros ? [[= <-] _]).
    intros e [[= <-] Hkind]. now elim (Hkind code body).
Qed.

Lemma request_json_without_http_errors method url headers timeout t :
  request_json (without_http_errors net) method url headers timeout t
  = request_json net method url headers timeout t.
Proof.
  unfold request_json, new_request, bind.
  destruct (request_error url); [reflexivity|].
  unfold ret, try_except, urlopen, without_http_errors.
  destruct (net _ _) as [response|e]; [reflexivity|]. now destruct e.
Qed.

Lemma bind_ext {A B} (m1 m2 : Py A) (f1 f2 : A -> Py B) t :
  m1 t = m2 t -> (forall a t', f1 a t' = f2 a t') ->
  bind m1 f1 t = bind m2 f2 t.
Proof.
  intros Hm Hf. unfold bind. rewrite Hm.
  destruct (m2 t) as [[a| |] t']; [apply Hf|reflexivity|reflexivity].
Qed.

Lemma health_attempts_without_http_errors url retries timeout delay headers
    attempts t :
  health_attempts (without_http_errors net) url retries timeout delay headers
    attempts t
  = health_attempts net url retries timeout delay headers attempts t.
Proof.
  revert t. induction attempts as [|attempt rest IH]; intros t; [reflexivity|].
  cbn [health_attempts].
  apply bind_ext; [apply request_json_without_http_errors|].
  intros [status raw] t'.
  apply bind_ext; [reflexivity|]. intros body t''.
  destruct ((status =? 200) && body_ok body); [reflexivity|].
  apply bind_ext; [reflexivity|]. intros _ t'''. apply IH.
Qed.

Lemma main_without_http_errors command t0 :
  main (without_http_errors net) environ command t0 = main net environ command t0.
Proof.
  unfold main. apply bind_ext; [reflexivity|]. intros args t1. cbv zeta.
  apply bind_ext.
  - unfold ensure_health. cbv zeta.
    apply bind_ext; [apply health_attempts_without_http_errors|reflexivity].
  - intros _ t2.
    apply bind_ext; [apply request_json_without_http_errors|reflexivity].
Qed.

(** X18.  An error status is an ordinary answer: a run against a service
    that raises [HTTPError] for some requests is, event for event and with
    the same end, the run against the service that returns the same statuses
    and bodies as plain responses. *)
Theorem http_errors_are_ordinary_answers command t0 :
  run_script (without_http_errors net) environ command t0
  = run_script net environ command t0.
Proof. unfold run_script. now rewrite main_without_http_errors. Qed.

(** ** The ready attempt *)

(** X19.  The k-th health attempt of a run takes place and comes back ready
    exactly when k is at most R, [urllib] accepts the address, each of the
    k - 1 attempts before it came back with an HTTP response that is not
    ready and whose body [json.loads] decodes or rejects as not JSON, the
    k-th answer is ready, and [time.sleep] accepts the delay (when
    k > 1). *)
Theorem ready_attempt_is_reached_iff args k :
  came_back_ready net environ args k <->
  (1 <= k)%nat /\ Z.of_nat k <= health_retries args /\
  request_error (health_url args) = None /\
  (forall i, (i < Nat.pred k)%nat ->
             answered_not_ready (net i (health_request environ args))) /\
  answered_ready (net (Nat.pred k) (health_request environ args)) /\
  ((1 < k)%nat -> sleep_refusal (retry_delay args) = None).
Proof. apply came_back_ready_first_ready. Qed.

End Properties.

(** * Examples *)

Section Examples.

#[local] Existing Instance sample_lib.

(** ** The sample services *)

Lemma ok_text_ready : readiness 200 ok_text.
Proof. split; [reflexivity|]. exists ok_body. split; reflexivity. Qed.

Lemma status_503_not_ready raw : ~ readiness 503 raw.
Proof. intros [E _]. discriminate. Qed.

Lemma ok_answer_ready : answered_ready (inl (200, ok_text)).
Proof. exists 200, ok_text. split; [reflexivity|apply ok_text_ready]. Qed.

Lemma starting_answer_not_ready :
  answered_not_ready (inr (HTTPError 503 "starting")).
Proof.
  exists 503, "starting"%string. split; [reflexivity|].
  split; [now exists None|apply status_503_not_ready].
Qed.

Lemma healthy_first_ready :
  first_ready_at healthy_service no_environ default_args 1.
Proof.
  unfold first_ready_at.
  split; [lia|]. split; [cbn; lia|]. split; [reflexivity|].
  split; [intros i Hi; cbn in Hi; lia|].
  split; [apply ok_answer_ready|intros Hlt; lia].
Qed.

Lemma ready_then_first_ready answer :
  first_ready_at (ready_then answer) no_environ default_args 1.
Proof.
  unfold first_ready_at.
  split; [lia|]. split; [cbn; lia|]. split; [reflexivity|].
  split; [intros i Hi; cbn in Hi; lia|].
  split; [apply ok_answer_ready|intros Hlt; lia].
Qed.

Lemma slow_first_ready answer :
  first_ready_at (slow_service answer) no_environ default_args 3.
Proof.
  unfold first_ready_at.
  split; [lia|]. split; [cbn; lia|]. split; [reflexivity|].
  split; [|split; [apply ok_answer_ready|reflexivity]].
  intros [|[|i]] Hi; cbn in Hi; try lia; apply starting_answer_not_ready.
Qed.

Lemma starting_never_ready i request :
  answered_not_ready (starting_service i request).
Proof. apply starting_answer_not_ready. Qed.

(** ** C1 *)

(** Three attempts answered 503: three requests, two sleeps, the
    diagnostic, exit 10, and no request to the self-check endpoint. *)
Lemma never_ready_exits_10_witness :
  requests_to (self_check_url default_args)
    (snd (run_script starting_service no_environ (Namespace default_args) []))
  = 0%nat /\
  exists t,
    run_script starting_service no_environ (Namespace default_args) []
    = (Exited 10, t) /\
    t = polled health (Finite (7 # 10)) 3
        ++ [Stderr "health check failed: runtime not ready"] /\
    stderr_of t = ["health check failed: runtime not ready"%string].
Proof.
  destruct (never_ready_exits_10 starting_service no_environ default_args)
    as [Hnone Hexit].
  - cbn. lia.
  - intros i _. apply not_ready_is_not_ready, starting_never_ready.
  - split; [exact Hnone|]. apply Hexit.
    + reflexivity.
    + intros i _. apply starting_never_ready.
    + reflexivity.
Defined.

(** The claim as stated fails when the connection is refused: R = 3 and no
    attempt satisfies the readiness condition, yet the process does not
    exit 10 and the diagnostic is not printed. *)
Lemma refused_health_does_not_exit_10 :
  1 <= health_retries default_args /\
  (forall i, ~ answered_ready (refusing_service i health)) /\
  run_script refusing_service no_environ (Namespace default_args) []
    = (Traceback refused, [Urlopen health]) /\
  exit_status
    (fst (run_script refusing_service no_environ (Namespace default_args) []))
    <> 10 /\
  stderr_of
    (snd (run_script refusing_service no_environ (Namespace default_args) []))
    = [].
Proof.
  repeat split; try discriminate.
  intros i (status & raw & Hgot & _). discriminate.
Qed.

(** ** C2 *)

Lemma self_check_transport_failure_is_uncaught_witness :
  exists t,
    run_script stalling_service no_environ (Namespace default_args) []
      = (Traceback TimeoutError, t) /\
    t = polled health (Finite (7 # 10)) 1 ++ [Urlopen self_check] /\
    exit_status (Traceback TimeoutError) = 1 /\
    exit_status (Traceback TimeoutError) <> 10 /\
    stdout_of t = [] /\ stderr_of t = [].
Proof.
  apply (self_check_transport_failure_is_uncaught stalling_service no_environ
           default_args 1 TimeoutError).
  - apply ready_then_first_ready.
  - split; [reflexivity|discriminate].
Defined.

(** The claim as stated fails when the self-check request times out: the
    exit status is 1, not 20, and the script prints no diagnostic. *)
Lemma self_check_timeout_does_not_exit_20 :
  first_ready_at stalling_service no_environ default_args 1 /\
  transport_failure (stalling_service 1%nat self_check) TimeoutError /\
  run_script stalling_service no_environ (Namespace default_args) []
    = (Traceback TimeoutError, [Urlopen health; Urlopen self_check]) /\
  exit_status
    (fst (run_script stalling_service no_environ (Namespace default_args) []))
    <> 20 /\
  stderr_of
    (snd (run_script stalling_service no_environ (Namespace default_args) []))
    = [].
Proof.
  split; [apply ready_then_first_ready|].
  repeat split; discriminate.
Qed.

(** ** C3 *)

(** The failing report of the specification: exit 1 and the single line
    [[FAILED] disk: low space]. *)
Lemma verdict_from_body_witness :
  run_script (slow_service (inl (200, failing_text))) no_environ
    (Namespace default_args) []
  = (Exited 1,
     polled health (Finite (7 # 10)) 3
       ++ [Urlopen self_check;
           Stdout failing_report;
           Stderr "[FAILED] disk: low space"]).
Proof.
  apply (proj1 (proj2 (verdict_from_body
                         (slow_service (inl (200, failing_text))) no_environ
                         default_args 3 200 failing_text failing_body
                         failing_report
                         (slow_first_ready _) eq_refl eq_refl eq_refl eq_refl
                         eq_refl))).
  discriminate.
Defined.

(** The claim as stated fails for an object that holds a lone surrogate:
    the status is 200 and [ok] is the boolean true, yet the process does
    not exit 0; printing the report raises and the run ends in a
    traceback. *)
Lemma unencodable_report_does_not_exit_0 :
  first_ready_at (ready_then (inl (200, surrogate_text))) no_environ
    default_args 1 /\
  delivered (ready_then (inl (200, surrogate_text)) 1%nat self_check)
    = Some (200, surrogate_text) /\
  json_loads surrogate_text = inl (PyDict surrogate_body) /\
  200 < 400 /\
  lookup surrogate_body "ok" = Some (PyBool true) /\
  run_script (ready_then (inl (200, surrogate_text))) no_environ
    (Namespace default_args) []
    = (Traceback UnicodeEncodeError, [Urlopen health; Urlopen self_check]) /\
  exit_status
    (fst (run_script (ready_then (inl (200, surrogate_text))) no_environ
            (Namespace default_args) []))
    <> 0.
Proof.
  split; [apply ready_then_first_ready|].
  repeat split; try reflexivity; discriminate.
Qed.

(** ** C4 *)

(** Status 503 with a body that says [ok: true]: exit 20 all the same. *)
Lemma status_gate_precedes_ok_gate_witness :
  run_script (slow_service (inr (HTTPError 503 ok_text))) no_environ
    (Namespace default_args) []
  = (Exited 20,
     polled health (Finite (7 # 10)) 3
       ++ [Urlopen self_check;
           Stdout ok_report;
           Stderr "self-check endpoint returned HTTP 503"]) /\
  option_map Z.of_int (NilZero.int_of_string (format_int 503)) = Some 503.
Proof.
  apply (status_gate_precedes_ok_gate
           (slow_service (inr (HTTPError 503 ok_text))) no_environ
           default_args 3 503 ok_text ok_body ok_report).
  - apply slow_first_ready.
  - reflexivity.
  - reflexivity.
  - reflexivity.
  - reflexivity.
  - lia.
Defined.

(** The claim as stated fails for a 503 whose object holds a lone
    surrogate: printing the report raises before the status gate, so no
    line names the status and the exit status is not 20. *)
Lemma unencodable_error_report_does_not_exit_20 :
  first_ready_at (ready_then (inr (HTTPError 503 surrogate_text))) no_environ
    default_args 1 /\
  delivered (ready_then (inr (HTTPError 503 surrogate_text)) 1%nat self_check)
    = Some (503, surrogate_text) /\
  json_loads surrogate_text = inl (PyDict surrogate_body) /\
  400 <= 503 /\
  run_script (ready_then (inr (HTTPError 503 surrogate_text))) no_environ
    (Namespace default_args) []
    = (Traceback UnicodeEncodeError, [Urlopen health; Urlopen self_check]) /\
  stderr_of
    (snd (run_script (ready_then (inr (HTTPError 503 surrogate_text)))
            no_environ (Namespace default_args) []))
    = [] /\
  exit_status
    (fst (run_script (ready_then (inr (HTTPError 503 surrogate_text)))
            no_environ (Namespace default_args) []))
    <> 20.
Proof.
  split; [apply ready_then_first_ready|].
  repeat split; try reflexivity; discriminate.
Qed.

(** ** C5 *)

Lemma invalid_response_exits_20_witness :
  run_script (slow_service (inl (200, "not json"%string))) no_environ
    (Namespace default_args) []
  = (Exited 20,
     polled health (Finite (7 # 10)) 3
       ++ [Urlopen self_check;
           Stdout "not json";
           Stderr "self-check response is not valid JSON"]).
Proof.
  apply (invalid_response_exits_20
           (slow_service (inl (200, "not json"%string))) no_environ
           default_args 3 200 "not json").
  - apply slow_first_ready.
  - reflexivity.
  - left. now exists "Expecting value"%string.
  - reflexivity.
Defined.

(** The claim as stated fails for a body of 5000 digits: [json.loads] does
    not decode it, and the exception it raises is not the one
    [parse_json_or_none] catches; nothing is printed and the exit status is
    not 20. *)
Lemma long_number_does_not_exit_20 :
  first_ready_at (ready_then (inl (200, digits_text))) no_environ
    default_args 1 /\
  delivered (ready_then (inl (200, digits_text)) 1%nat self_check)
    = Some (200, digits_text) /\
  json_loads digits_text = inr (DigitLimit digits_message) /\
  run_script (ready_then (inl (200, digits_text))) no_environ
    (Namespace default_args) []
    = (Traceback (ValueError digits_message),
       [Urlopen health; Urlopen self_check]) /\
  exit_status
    (fst (run_script (ready_then (inl (200, digits_text))) no_environ
            (Namespace default_args) []))
    <> 20.
Proof.
  split; [apply ready_then_first_ready|].
  repeat split; try reflexivity. vm_compute. discriminate.
Qed.

(** ** C6 *)

Lemma health_transport_failure_is_uncaught_witness :
  run_script late_service no_environ (Namespace default_args) []
    = (Traceback refused, polled health (Finite (7 # 10)) 1)
  /\ exit_status (Traceback refused) = 1.
Proof.
  apply (health_transport_failure_is_uncaught late_service no_environ
           default_args 1 refused).
  - lia.
  - cbn. lia.
  - reflexivity.
  - intros i Hi. cbn in Hi. lia.
  - intros Hlt. lia.
  - split; [reflexivity|discriminate].
Defined.

(** The claim as stated fails when the first connection is refused: two
    attempts remain and the second would come back ready, yet there is no
    sleep and no second request, and the run ends in the traceback. *)
Lemma refused_attempt_is_not_retried :
  transport_failure (late_service 0%nat health) refused /\
  1 < health_retries default_args /\
  answered_ready (late_service 1%nat health) /\
  run_script late_service no_environ (Namespace default_args) []
    = (Traceback refused, [Urlopen health]) /\
  sleeps_of
    (snd (run_script late_service no_environ (Namespace default_args) [])) = [] /\
  requests_in
    (snd (run_script late_service no_environ (Namespace default_args) []))
    = 1%nat.
Proof.
  repeat split; try discriminate.
  apply ok_answer_ready.
Qed.

(** ** C7 *)


(** ** C8 *)

Lemma report_printed_before_gates_witness :
  exists code errs,
    run_script (slow_service (inl (200, failing_text))) no_environ
      (Namespace default_args) []
    = (Exited code,
       polled health (Finite (7 # 10)) 3
         ++ Urlopen self_check
         :: Stdout failing_report
         :: map Stderr errs) /\
    (code = 20 <-> 400 <= 200) /\
    (code = 0 <-> 200 < 400 /\ lookup failing_body "ok" = Some (PyBool true)) /\
    (code = 1 <-> 200 < 400 /\ lookup failing_body "ok" <> Some (PyBool true)).
Proof.
  apply (proj1 (report_printed_before_gates
                  (slow_service (inl (200, failing_text))) no_environ
                  default_args 3 200 failing_text failing_body
                  (slow_first_ready _) eq_refl eq_refl)
           failing_report eq_refl eq_refl).
Defined.

(** The claim as stated fails for an object that holds a lone surrogate:
    the body parses as a JSON object, yet the report does not appear on
    standard output and the run ends on none of the three paths. *)
Lemma unencodable_report_is_not_printed :
  first_ready_at (slow_service (inl (200, surrogate_text))) no_environ
    default_args 3 /\
  delivered (slow_service (inl (200, surrogate_text)) 3%nat self_check)
    = Some (200, surrogate_text) /\
  json_loads surrogate_text = inl (PyDict surrogate_body) /\
  run_script (slow_service (inl (200, surrogate_text))) no_environ
    (Namespace default_args) []
    = (Traceback UnicodeEncodeError,
       polled health (Finite (7 # 10)) 3 ++ [Urlopen self_check]) /\
  stdout_of
    (snd (run_script (slow_service (inl (200, surrogate_text))) no_environ
            (Namespace default_args) []))
    = [].
Proof.
  split; [apply slow_first_ready|].
  repeat split; reflexivity.
Qed.

(** ** C9 *)

(** The probe run twice against the healthy runtime: the second run starts
    after the events of the first, ends the same way and adds the same
    events. *)
Lemma runs_are_stateless_witness :
  exists end_ out,
    run_script healthy_service no_environ (Namespace default_args) []
    = (end_, [] ++ out) /\
    run_script healthy_service no_environ (Namespace default_args)
      (snd (run_script healthy_service no_environ (Namespace default_args) []))
    = (end_,
       snd (run_script healthy_service no_environ (Namespace default_args) [])
       ++ out).
Proof.
  apply (runs_are_stateless no_environ healthy_service healthy_service
           (Namespace default_args) []
           (snd (run_script healthy_service no_environ
                   (Namespace default_args) []))).
  intros i request. reflexivity.
Defined.

(** ** C10 *)

Lemma no_attempt_without_retries_witness :
  run_script healthy_service no_environ
    (Namespace (mkArgs "http://127.0.0.1:48765" EmptyString 0 (Finite 2)
               (Finite (7 # 10)))) []
  = (Exited 10, [Stderr "health check failed: runtime not ready"]).
Proof.
  apply (no_attempt_without_retries healthy_service no_environ).
  cbn. lia.
Defined.

(** ** Further properties *)

Lemma exit_0_only_if_self_check_passed_witness :
  (exists help,
     Namespace default_args = HelpRequested help /\
     stdout_encodes help = true /\
     snd (run_script healthy_service no_environ (Namespace default_args) [])
     = [Stdout help]) \/
  (exists args k status raw body report,
     Namespace default_args = Namespace args /\
     first_ready_at healthy_service no_environ args k /\
     delivered (healthy_service k (self_check_request no_environ args))
     = Some (status, raw) /\
     json_loads raw = inl (PyDict body) /\
     json_dumps (PyDict body) = Some report /\
     status < 400 /\
     lookup body "ok" = Some (PyBool true) /\
     snd (run_script healthy_service no_environ (Namespace default_args) [])
     = polled (health_request no_environ args) (retry_delay args) k
       ++ [Urlopen (self_check_request no_environ args); Stdout report] /\
     stderr_of
       (snd (run_script healthy_service no_environ (Namespace default_args) []))
     = []).
Proof.
  apply (exit_0_only_if_self_check_passed healthy_service no_environ
           (Namespace default_args)).
  reflexivity.
Defined.

Lemma exit_10_only_if_never_ready_witness :
  (forall i, (i < 3)%nat -> answered_not_ready (starting_service i health)) /\
  requests_to (health_url default_args)
    (snd (run_script starting_service no_environ (Namespace default_args) []))
  = 3%nat /\
  requests_to (self_check_url default_args)
    (snd (run_script starting_service no_environ (Namespace default_args) []))
  = 0%nat /\
  stdout_of
    (snd (run_script starting_service no_environ (Namespace default_args) []))
  = [] /\
  stderr_of
    (snd (run_script starting_service no_environ (Namespace default_args) []))
  = ["health check failed: runtime not ready"%string].
Proof.
  apply (exit_10_only_if_never_ready starting_service no_environ default_args).
  reflexivity.
Defined.

Lemma exit_20_only_if_bad_answer_witness :
  exists k status raw,
    first_ready_at (slow_service (inl (200, "not json"%string))) no_environ
      default_args k /\
    delivered (slow_service (inl (200, "not json"%string)) k self_check)
    = Some (status, raw) /\
    ((forall body, json_loads raw <> inl (PyDict body)) \/
     (400 <= status /\ exists body, json_loads raw = inl (PyDict body))).
Proof.
  apply (exit_20_only_if_bad_answer
           (slow_service (inl (200, "not json"%string))) no_environ default_args
           (snd (run_script (slow_service (inl (200, "not json"%string)))
                   no_environ (Namespace default_args) []))).
  reflexivity.
Defined.

Lemma exit_1_only_if_checks_failed_witness :
  exists k status raw body report,
    first_ready_at (slow_service (inl (200, failing_text))) no_environ
      default_args k /\
    delivered (slow_service (inl (200, failing_text)) k self_check)
    = Some (status, raw) /\
    json_loads raw = inl (PyDict body) /\
    json_dumps (PyDict body) = Some report /\
    status < 400 /\
    lookup body "ok" <> Some (PyBool true) /\
    stdout_of (snd (run_script (slow_service (inl (200, failing_text)))
                      no_environ (Namespace default_args) []))
    = [report] /\
    stderr_of (snd (run_script (slow_service (inl (200, failing_text)))
                      no_environ (Namespace default_args) []))
    = reported body.
Proof.
  apply (exit_1_only_if_checks_failed
           (slow_service (inl (200, failing_text))) no_environ default_args).
  reflexivity.
Defined.

Lemma every_request_is_configured_witness :
  (self_check = health \/ self_check = self_check) /\
  req_method self_check = "GET"%string /\
  req_headers self_check = headers_of no_environ default_args.
Proof.
  apply (every_request_is_configured healthy_service no_environ default_args).
  right. left. reflexivity.
Defined.

(** With [--token secret] the variable of the environment changes nothing. *)
Lemma command_line_token_wins_witness :
  run_script healthy_service no_environ (Namespace token_args) []
  = run_script healthy_service token_environ (Namespace token_args) [].
Proof.
  apply (command_line_token_wins healthy_service no_environ token_environ
           token_args []).
  discriminate.
Defined.

(** A delay of -0.5 with three attempts against a runtime that answers 503:
    one request, then the traceback of the exception of [time.sleep]. *)
Lemma negative_delay_ends_the_run_witness :
  exists e,
    run_script starting_service no_environ (Namespace hasty_args) []
    = (Traceback e, [Urlopen (health_request no_environ hasty_args)]) /\
    (e = ValueError "sleep length must be non-negative" \/ e = OverflowError) /\
    exit_status (Traceback e) = 1.
Proof.
  apply (negative_delay_ends_the_run starting_service no_environ hasty_args).
  - cbn. lia.
  - reflexivity.
  - apply starting_never_ready.
  - reflexivity.
Defined.

(** The report of a failing self-check is the one text on standard
    output. *)
Lemma stdout_is_the_answer_or_nothing_witness :
  stdout_of
    (snd (run_script (slow_service (inl (200, failing_text))) no_environ
            (Namespace default_args) []))
  = [failing_report].
Proof.
  apply (proj2 (proj2 (stdout_is_the_answer_or_nothing
                         (slow_service (inl (200, failing_text))) no_environ
                         default_args)
                  3%nat 200 failing_text (slow_first_ready _) eq_refl)
           failing_body failing_report eq_refl eq_refl eq_refl).
Defined.

(** An endpoint without a scheme is refused before any request. *)
Lemma request_json_returns_every_status_witness :
  request_json healthy_service "GET" "127.0.0.1/housekeeper/health" []
    (Finite 2) []
  = (Raise (ValueError "unknown url type: '127.0.0.1/housekeeper/health'"), []).
Proof.
  apply (proj1 (request_json_returns_every_status healthy_service
                  "GET" "127.0.0.1/housekeeper/health" [] (Finite 2) [])).
  reflexivity.
Defined.

(** The third attempt of the slow runtime takes place and comes back
    ready. *)
Lemma ready_attempt_is_reached_iff_witness :
  came_back_ready (slow_service (inl (200, ok_text))) no_environ default_args 3.
Proof.
  apply (proj2 (ready_attempt_is_reached_iff
                  (slow_service (inl (200, ok_text))) no_environ default_args 3)).
  apply slow_first_ready.
Defined.

(** ** Runs that stop before the script prints anything *)

(** [--endpoint 127.0.0.1]: the address has no scheme, and the run ends
    before the first request. *)
Example bare_endpoint_run :
  run_script healthy_service no_environ (Namespace bare_args) []
  = (Traceback (ValueError "unknown url type: '127.0.0.1/housekeeper/health'"), []).
Proof. reflexivity. Qed.

(** [--retry-delay 1e10] against a runtime that answers 503: the first
    sleep raises [OverflowError]. *)
Example long_delay_run :
  run_script starting_service no_environ (Namespace patient_args) []
  = (Traceback OverflowError, [Urlopen (health_request no_environ patient_args)]).
Proof. reflexivity. Qed.

(** A health answer of 5000 digits is neither ready nor counted as not
    ready: [json.loads] raises a [ValueError] that nothing catches. *)
Example long_number_health_run :
  run_script (fun _ _ => inl (200, digits_text)) no_environ
    (Namespace default_args) []
  = (Traceback (ValueError digits_message), [Urlopen health]).
Proof. vm_compute. reflexivity. Qed.

(** An object nested 995 levels deep is decoded by [json.loads], and
    [json.dumps] raises [RecursionError] on it. *)
Example deep_report_run :
  run_script (ready_then (inl (200, deep_text))) no_environ
    (Namespace default_args) []
  = (Traceback RecursionError, [Urlopen health; Urlopen self_check]).
Proof. vm_compute. reflexivity. Qed.

(** [-h] prints the help and exits 0; a flag [argparse] rejects exits 2 with
    the usage and the message on standard error; neither makes a
    request. *)
Example help_run :
  run_script healthy_service no_environ (HelpRequested "usage: ...") []
  = (Exited 0, [Stdout "usage: ..."]).
Proof. reflexivity. Qed.

Example rejected_flag_run :
  run_script healthy_service no_environ
    (UsageError "usage: ..." "error: argument --health-retries: invalid int value") []
  = (Exited 2,
     [Stderr "usage: ...";
      Stderr "error: argument --health-retries: invalid int value"]).
Proof. reflexivity. Qed.

End Examples.
